(** * The cloud-metrics controller: reconciliation pass and gauge publishing

    A shallow embedding of [pkg/controller/cloudmetrics/cloudmetrics_controller.go]:
    the two metric catalogs, the selection of provider metric types for a
    strategy, the scrape loops over custom resources and providers,
    [setGaugeMetrics] and [Reconcile], followed by the properties of a
    reconciliation pass.

    Go packages are rendered as modules holding their types.  The packages
    [providers], [resources], [prometheus], [reconcile] and the API types lie
    outside the sources at hand; their types carry the fields the controller
    reads or writes, and their constants are the fields of [PackageConstants]. *)

From Stdlib Require Import ZArith String List PrimFloat.
From stdpp Require Import base option list gmap strings fin_maps.

Local Open Scope string_scope.

(** ** Types of the imported packages *)

Module providers.

(** [providers.CloudProviderMetricType]: how to ask one provider for one metric. *)
Record CloudProviderMetricType := {
  PromethuesMetricName : string;
  ProviderMetricName : string;
  Statistic : string
}.

(** [providers.GenericCloudMetric]: one scraped sample.  [Value] is a float64. *)
Record GenericCloudMetric := {
  Name : string;
  Labels : gmap string string;
  Value : float
}.

(** [providers.ScrapeMetricsData]: what a successful scrape returns. *)
Record ScrapeMetricsData := {
  Metrics : list GenericCloudMetric
}.

End providers.

Module v1alpha1.

(** Modelled from the spec: the Redis and Postgres custom resources are
    declared in [pkg/apis/integreatly/v1alpha1], outside the sources at hand.
    The controller reads [Name] and [Status.Strategy]; the spec lists the
    namespace and the identity labels besides. *)
Record CustomResource := {
  Name : string;
  Namespace : string;
  Labels : gmap string string;
  Strategy : string            (* Status.Strategy *)
}.

End v1alpha1.

Module prometheus.

Record GaugeOpts := {
  Name : string;
  Help : string
}.

(** A [*prometheus.GaugeVec].  Two vectors are the same object when their
    addresses agree; the options do not take part in [Set].  Every vector of
    the controller is created over the six label keys of [labels], and
    [setGaugeMetrics] always passes six values. *)
Record GaugeVec := {
  addr : positive;
  opts : GaugeOpts
}.

End prometheus.

Module reconcile.

(** [reconcile.Request] (a namespaced name) and [reconcile.Result]. *)
Record Request := {
  Namespace : string;
  Name : string
}.

Record Result := {
  Requeue : bool;
  RequeueAfter : Z             (* a time.Duration *)
}.

(** [reconcile.Result{}] *)
Definition zero : Result := {| Requeue := false; RequeueAfter := 0 |}.

End reconcile.

(** Go's [error], by its message. *)
Definition error := string.

(** The two kinds of custom resource the controller lists. *)
Inductive Kind := KRedis | KPostgres.

Definition kindName (k : Kind) : string :=
  match k with
  | KRedis => "redis"
  | KPostgres => "postgres"
  end.

(** Constants and the interval lookup of the packages [resources], [providers]
    and [cloudwatch], which are outside the sources at hand. *)
Class PackageConstants := {
  PostgresFreeStorageAverage : string;
  PostgresCPUUtilizationAverage : string;
  PostgresFreeableMemoryAverage : string;
  RedisMemoryUsagePercentageAverage : string;
  RedisFreeableMemoryAverage : string;
  RedisCPUUtilizationAverage : string;
  MetricsWatchDuration : Z;
  GetMetricReconcileTimeOrDefault : Z -> Z;
  AWSDeploymentStrategy : string;
  StatisticAverage : string
}.

(** ** Label keys *)

Definition labelClusterIDKey := "clusterID".
Definition labelResourceIDKey := "resourceID".
Definition labelNamespaceKey := "namespace".
Definition labelInstanceIDKey := "instanceID".
Definition labelProductNameKey := "productName".
Definition labelStrategyKey := "strategy".

(** generic list of label keys used for Gauge Vectors *)
Definition labels : list string :=
  [ labelClusterIDKey; labelResourceIDKey; labelNamespaceKey;
    labelInstanceIDKey; labelProductNameKey; labelStrategyKey ].

(** [prometheus.NewGaugeVec(opts, labels)]: the vector allocated at [a]. *)
Definition NewGaugeVec (a : positive) (o : prometheus.GaugeOpts) (_ : list string)
  : prometheus.GaugeVec :=
  {| prometheus.addr := a; prometheus.opts := o |}.

(** CroGaugeMetric allows for a mapping between an exposed prometheus metric
    and multiple cloud provider specific metric *)
Record CroGaugeMetric := {
  Name : string;
  GaugeVec : prometheus.GaugeVec;
  ProviderType : gmap string providers.CloudProviderMetricType
}.

(** Indexing a Go map of strings: the empty string when the key is absent. *)
Definition index (m : gmap string string) (k : string) : string :=
  default "" (m !! k).

(** The six values [setGaugeMetrics] hands to [WithLabelValues]. *)
Definition labelValues (scrapedMetric : providers.GenericCloudMetric) : list string :=
  [ index (providers.Labels scrapedMetric) labelClusterIDKey;
    index (providers.Labels scrapedMetric) labelResourceIDKey;
    index (providers.Labels scrapedMetric) labelNamespaceKey;
    index (providers.Labels scrapedMetric) labelInstanceIDKey;
    index (providers.Labels scrapedMetric) labelProductNameKey;
    index (providers.Labels scrapedMetric) labelStrategyKey ].

(** ** The catalogs *)

Section Catalogs.
Context `{PackageConstants}.

Definition awsOnly (promName providerName : string)
  : gmap string providers.CloudProviderMetricType :=
  {[ AWSDeploymentStrategy :=
       {| providers.PromethuesMetricName := promName;
          providers.ProviderMetricName := providerName;
          providers.Statistic := StatisticAverage |} ]}.

(** The package variables are initialised in declaration order, so the three
    postgres vectors are allocated before the three redis ones. *)
Definition postgresGaugeMetrics : list CroGaugeMetric :=
  [ {| Name := PostgresFreeStorageAverage;
       GaugeVec := NewGaugeVec 1
         {| prometheus.Name := PostgresFreeStorageAverage;
            prometheus.Help := "The amount of available storage space. Units: Bytes" |}
         labels;
       ProviderType := awsOnly PostgresFreeStorageAverage "FreeStorageSpace" |};
    {| Name := PostgresCPUUtilizationAverage;
       GaugeVec := NewGaugeVec 2
         {| prometheus.Name := PostgresCPUUtilizationAverage;
            prometheus.Help := "The percentage of CPU utilization. Units: Percent" |}
         labels;
       ProviderType := awsOnly PostgresCPUUtilizationAverage "CPUUtilization" |};
    {| Name := PostgresFreeableMemoryAverage;
       GaugeVec := NewGaugeVec 3
         {| prometheus.Name := PostgresFreeableMemoryAverage;
            prometheus.Help := "The amount of available random access memory. Units: Bytes" |}
         labels;
       ProviderType := awsOnly PostgresFreeableMemoryAverage "FreeableMemory" |} ].

Definition redisGaugeMetrics : list CroGaugeMetric :=
  [ {| Name := RedisMemoryUsagePercentageAverage;
       GaugeVec := NewGaugeVec 4
         {| prometheus.Name := RedisMemoryUsagePercentageAverage;
            prometheus.Help := "The percentage of redis used memory. Units: Bytes" |}
         labels;
       ProviderType :=
         awsOnly RedisMemoryUsagePercentageAverage "DatabaseMemoryUsagePercentage" |};
    {| Name := RedisFreeableMemoryAverage;
       GaugeVec := NewGaugeVec 5
         {| prometheus.Name := RedisFreeableMemoryAverage;
            prometheus.Help := "The amount of available random access memory. Units: Bytes" |}
         labels;
       ProviderType := awsOnly RedisFreeableMemoryAverage "FreeableMemory" |};
    {| Name := RedisCPUUtilizationAverage;
       GaugeVec := NewGaugeVec 6
         {| prometheus.Name := RedisCPUUtilizationAverage;
            prometheus.Help := "The percentage of CPU utilization. Units: Percent" |}
         labels;
       ProviderType := awsOnly RedisCPUUtilizationAverage "CPUUtilization" |} ].

Definition catalog (k : Kind) : list CroGaugeMetric :=
  match k with
  | KRedis => redisGaugeMetrics
  | KPostgres => postgresGaugeMetrics
  end.

End Catalogs.

Local Open Scope list_scope.

Abbreviation CR := v1alpha1.CustomResource.
Abbreviation MetricType := providers.CloudProviderMetricType.
Abbreviation Sample := providers.GenericCloudMetric.

(** ** Selecting the provider metric types of a strategy *)

(** The loop [for provider, metricType := range gaugeMetric.ProviderType] over
    the entries of the map in the order [entries]. *)
Fixpoint rangeProviderType (entries : list (string * MetricType)) (strategy : string)
    (metricTypes : list MetricType) : list MetricType :=
  match entries with
  | [] => metricTypes
  | (provider, metricType) :: entries' =>
      if String.eqb provider strategy
      then rangeProviderType entries' strategy (metricTypes ++ [metricType])
      else rangeProviderType entries' strategy metricTypes
  end.

(** The loop [for _, gaugeMetric := range gaugeMetrics] around it.  Go leaves
    the order of a map's entries open; [map_to_list] fixes one, and
    [rangeProviderType_any_order] shows that the order is immaterial. *)
Fixpoint metricTypesFor (gaugeMetrics : list CroGaugeMetric) (strategy : string)
    (metricTypes : list MetricType) : list MetricType :=
  match gaugeMetrics with
  | [] => metricTypes
  | gaugeMetric :: gaugeMetrics' =>
      metricTypesFor gaugeMetrics' strategy
        (rangeProviderType (map_to_list (ProviderType gaugeMetric)) strategy metricTypes)
  end.

(** ** Effects: the outside world, the gauges and the emitted events *)

Section Controller.
Context `{PackageConstants}.

(** The API server and the cloud providers: whatever a call may depend on
    and change. *)
Context {W : Type}.

(** [providers.RedisMetricsProvider] and [providers.PostgresMetricsProvider]:
    the two interfaces have the same shape, [ScrapeMetrics] standing for
    [ScrapeRedisMetrics] and [ScrapePostgresMetrics]. *)
Record MetricsProvider := {
  SupportsStrategy : string -> bool;
  ScrapeMetrics : CR -> list MetricType -> W ->
                  (error + providers.ScrapeMetricsData) * W
}.

(** [client.Client], of which the controller uses [List].  The call fills
    the list object it is given and returns an error or nil: [ClientList]
    gives the items found in the object afterwards and the error. *)
Record Client := {
  ClientList : Kind -> W -> (list CR * option error) * W
}.

(** ReconcileCloudMetrics reconciles a CloudMetrics object.  The logger is
    rendered by the events below. *)
Record ReconcileCloudMetrics := {
  client : Client;
  postgresProviderList : list MetricsProvider;
  redisProviderList : list MetricsProvider
}.

Definition providerList (r : ReconcileCloudMetrics) (k : Kind) : list MetricsProvider :=
  match k with
  | KRedis => redisProviderList r
  | KPostgres => postgresProviderList r
  end.

(** The gauges: the value of each labelled series of each vector. *)
Record State := {
  world : W;
  gauges : gmap (positive * list string) float
}.

(** What a pass emits: log lines and the calls to the outside with their
    results. *)
Inductive Event :=
| EvInfo (msg : string)
| EvError (msg : string)
| EvList (k : Kind) (items : list CR) (err : option error)
| EvScrape (k : Kind) (cr : CR) (metricTypes : list MetricType)
           (res : error + providers.ScrapeMetricsData).

Definition M (A : Type) : Type := State -> A * State * list Event.

Definition ret {A} (a : A) : M A := fun s => (a, s, []).

Definition bind {A B} (m : M A) (f : A -> M B) : M B :=
  fun s =>
    let '(a, s1, e1) := m s in
    let '(b, s2, e2) := f a s1 in
    (b, s2, e1 ++ e2).

Notation "x <- m ;; k" := (bind m (fun x => k))
  (at level 100, m at next level, right associativity).
Notation "m ;; k" := (bind m (fun _ => k))
  (at level 100, right associativity).

(** The value, the final state and the emitted events of a run. *)
Definition result {A} (x : A * State * list Event) : A := fst (fst x).
Definition final {A} (x : A * State * list Event) : State := snd (fst x).
Definition events {A} (x : A * State * list Event) : list Event := snd x.

Definition logInfo (msg : string) : M unit := fun s => (tt, s, [EvInfo msg]).
Definition logError (msg : string) : M unit := fun s => (tt, s, [EvError msg]).

(** [r.client.List(ctx, list)] for the list type of kind [k]. *)
Definition listResources (c : Client) (k : Kind) : M (list CR * option error) :=
  fun s =>
    let '(res, w) := ClientList c k (world s) in
    (res, {| world := w; gauges := gauges s |}, [EvList k (fst res) (snd res)]).

(** [p.ScrapeRedisMetrics(ctx, &cr, metricTypes)], and the same for postgres. *)
Definition scrape (k : Kind) (p : MetricsProvider) (cr : CR)
    (metricTypes : list MetricType) : M (error + providers.ScrapeMetricsData) :=
  fun s =>
    let '(res, w) := ScrapeMetrics p cr metricTypes (world s) in
    (res, {| world := w; gauges := gauges s |}, [EvScrape k cr metricTypes res]).

(** [gaugeVec.WithLabelValues(lvs...).Set(v)] *)
Definition gaugeSet (gaugeVec : prometheus.GaugeVec) (lvs : list string) (v : float)
  : M unit :=
  fun s =>
    (tt, {| world := world s;
            gauges := <[(prometheus.addr gaugeVec, lvs) := v]> (gauges s) |}, []).

(** ** setGaugeMetrics *)

(** The inner loop of [setGaugeMetrics] for one scraped metric.  The
    [continue] that ends its body goes on with the next catalog entry. *)
Fixpoint setGaugeMetric (gaugeMetrics : list CroGaugeMetric) (scrapedMetric : Sample)
  : M unit :=
  match gaugeMetrics with
  | [] => ret tt
  | croMetric :: gaugeMetrics' =>
      (if String.eqb (providers.Name scrapedMetric) (Name croMetric)
       then gaugeSet (GaugeVec croMetric) (labelValues scrapedMetric)
                     (providers.Value scrapedMetric) ;;
            logInfo ("successfully set metric value for " +:+ Name croMetric)
       else ret tt) ;;
      setGaugeMetric gaugeMetrics' scrapedMetric
  end.

(** func setGaugeMetrics sets the value on exposed metrics with labels *)
Fixpoint setGaugeMetrics (gaugeMetrics : list CroGaugeMetric) (scrapedMetrics : list Sample)
  : M unit :=
  match scrapedMetrics with
  | [] => ret tt
  | scrapedMetric :: scrapedMetrics' =>
      setGaugeMetric gaugeMetrics scrapedMetric ;;
      setGaugeMetrics gaugeMetrics scrapedMetrics'
  end.

(** ** The scrape loops of Reconcile *)

(** The loop over the providers of kind [k] for one custom resource. *)
Fixpoint scrapeProviders (k : Kind) (ps : list MetricsProvider) (cr : CR)
    (scrapedMetrics : list Sample) : M (list Sample) :=
  match ps with
  | [] => ret scrapedMetrics
  | p :: ps' =>
      (* only scrape metrics on supported strategies *)
      if negb (SupportsStrategy p (v1alpha1.Strategy cr))
      then scrapeProviders k ps' cr scrapedMetrics
      else
        let metricTypes := metricTypesFor (catalog k) (v1alpha1.Strategy cr) [] in
        res <- scrape k p cr metricTypes ;;
        match res with
        | inl err =>
            logError ("failed to scrape metrics for " +:+ kindName k +:+ " " +:+ err) ;;
            scrapeProviders k ps' cr scrapedMetrics
        | inr scrapedMetricsOutput =>
            scrapeProviders k ps' cr
              (scrapedMetrics ++ providers.Metrics scrapedMetricsOutput)
        end
  end.

(** The loop over the custom resources of kind [k]. *)
Fixpoint scrapeInstances (k : Kind) (ps : list MetricsProvider) (items : list CR)
    (scrapedMetrics : list Sample) : M (list Sample) :=
  match items with
  | [] => ret scrapedMetrics
  | cr :: items' =>
      logInfo ("beginning to scrape metrics for " +:+ kindName k +:+ " cr: "
               +:+ v1alpha1.Name cr) ;;
      scrapedMetrics <- scrapeProviders k ps cr scrapedMetrics ;;
      scrapeInstances k ps items' scrapedMetrics
  end.

(** ** Reconcile *)

(** The interval of the requeue directive. *)
Definition interval : Z := GetMetricReconcileTimeOrDefault MetricsWatchDuration.

Definition requeue : reconcile.Result :=
  {| reconcile.Requeue := false; reconcile.RequeueAfter := interval |}.

(** reconcile reads all redis and postgres crs periodically and reconcile
    metrics for these resources. *)
Definition Reconcile (r : ReconcileCloudMetrics) (request : reconcile.Request)
  : M (reconcile.Result * option error) :=
  logInfo "reconciling CloudMetrics" ;;
  (* fetch all redis crs *)
  redisInstances <- listResources (client r) KRedis ;;
  match snd redisInstances with
  | Some err => ret (reconcile.zero, Some err)
  | None =>
      (* loop through the redis crs and scrape the related provider specific metrics *)
      scrapedMetrics <-
        scrapeInstances KRedis (redisProviderList r) (fst redisInstances) [] ;;
      setGaugeMetrics redisGaugeMetrics scrapedMetrics ;;
      (* Fetch all postgres crs *)
      postgresInstances <- listResources (client r) KPostgres ;;
      match snd postgresInstances with
      | Some err => logError err
      | None => ret tt
      end ;;
      scrapedMetrics <-
        scrapeInstances KPostgres (postgresProviderList r) (fst postgresInstances)
          scrapedMetrics ;;
      setGaugeMetrics postgresGaugeMetrics scrapedMetrics ;;
      ret (requeue, None)
  end.

End Controller.

(** * The start of the controller *)

(** How a function of the start ends: it returns, or it panics. *)
Inductive Outcome (A : Type) :=
| Returned (a : A)
| Panicked.

Arguments Returned {A} a.
Arguments Panicked {A}.

(** What the start emits: the lines of the logger, the creation of the
    controller, the goroutine sending the first event, and the watch. *)
Inductive StartEvent :=
| SInfo (msg : string)
| SControllerNew (name : string)
| SGoSendEvent
| SWatch.

Section Startup.
Context `{PackageConstants} {W : Type}.

(** What lies outside the package: the metrics registry of the controller
    runtime, the state of the manager, and its controllers. *)
Context {Registry MW Controller : Type}.

(** [customMetrics.Registry.MustRegister(vec)]: the registry holding the
    vector besides, or [None] when the call panics. *)
Variable MustRegister : Registry -> prometheus.GaugeVec -> option Registry.

(** [aws.NewAWSPostgresMetricsProvider(c, logger)] and its redis sibling. *)
Variable NewAWSPostgresMetricsProvider : @Client W -> @MetricsProvider W.
Variable NewAWSRedisMetricsProvider : @Client W -> @MetricsProvider W.

(** [manager.Manager], of which the start takes the client. *)
Record Manager := {
  GetClient : @Client W
}.

(** [controller.New(name, mgr, controller.Options{Reconciler: r})] and
    [c.Watch(&source.Channel{Source: events}, &handler.EnqueueRequestForObject{})]. *)
Variable ControllerNew :
  string -> Manager -> @ReconcileCloudMetrics W -> MW -> (error + Controller) * MW.
Variable Watch : Controller -> MW -> option error * MW.

(** One loop of [registerGaugeVectorMetrics]: each metric is logged, then
    registered; the registry keeps what was registered before a panic. *)
Fixpoint registerMetrics (metrics : list CroGaugeMetric) (reg : Registry)
  : Outcome unit * Registry * list StartEvent :=
  match metrics with
  | [] => (Returned tt, reg, [])
  | metric :: metrics' =>
      let line := SInfo ("registering metric: " +:+ Name metric +:+ " ") in
      match MustRegister reg (GaugeVec metric) with
      | None => (Panicked, reg, [line])
      | Some reg' =>
          let '(o, reg'', evs) := registerMetrics metrics' reg' in
          (o, reg'', line :: evs)
      end
  end.

Definition registerGaugeVectorMetrics (reg : Registry)
  : Outcome unit * Registry * list StartEvent :=
  let '(o, reg1, evs1) := registerMetrics postgresGaugeMetrics reg in
  match o with
  | Panicked => (Panicked, reg1, evs1)
  | Returned _ =>
      let '(o2, reg2, evs2) := registerMetrics redisGaugeMetrics reg1 in
      (o2, reg2, evs1 ++ evs2)
  end.

(** newReconciler returns a new reconcile.Reconciler *)
Definition newReconciler (mgr : Manager) (reg : Registry)
  : Outcome (@ReconcileCloudMetrics W) * Registry * list StartEvent :=
  let c := GetClient mgr in
  let postgresProviderList := [NewAWSPostgresMetricsProvider c] in
  let redisProviderList := [NewAWSRedisMetricsProvider c] in
  (* we only wish to register metrics once when the new reconciler is created *)
  let '(o, reg', evs) := registerGaugeVectorMetrics reg in
  match o with
  | Panicked => (Panicked, reg', evs)
  | Returned _ =>
      (Returned {| client := GetClient mgr;
                   postgresProviderList := postgresProviderList;
                   redisProviderList := redisProviderList |},
       reg', evs)
  end.

(** add adds a new Controller to mgr with r as the reconcile.Reconciler *)
Definition add (mgr : Manager) (r : @ReconcileCloudMetrics W) (mw : MW)
  : option error * MW * list StartEvent :=
  (* Create a new controller *)
  let '(res, mw1) := ControllerNew "cloudmetrics-controller" mgr r mw in
  match res with
  | inl err => (Some err, mw1, [SControllerNew "cloudmetrics-controller"])
  | inr c =>
      (* Send a generic event to the channel to kick off the first reconcile
         loop, then set up the controller to use the channel as its watch source *)
      let '(err, mw2) := Watch c mw1 in
      (err, mw2, [SControllerNew "cloudmetrics-controller"; SGoSendEvent; SWatch])
  end.

(** Add creates a new CloudMetrics Controller and adds it to the Manager. *)
Definition Add (mgr : Manager) (reg : Registry) (mw : MW)
  : Outcome (option error) * Registry * MW * list StartEvent :=
  let '(o, reg', evs) := newReconciler mgr reg in
  match o with
  | Panicked => (Panicked, reg', mw, evs)
  | Returned r =>
      let '(err, mw', evs') := add mgr r mw in
      (Returned err, reg', mw', evs ++ evs')
  end.

End Startup.

(** * The earlier controller *)

Module time.

(** [time.Second], in nanoseconds. *)
Definition Second : Z := 1000000000.

End time.

Module part_000.

Section Controller.
Context {W : Type}.

Local Notation "x <- m ;; k" := (bind m (fun x => k))
  (at level 100, m at next level, right associativity).
Local Notation "m ;; k" := (bind m (fun _ => k))
  (at level 100, right associativity).

(** Set the reconcile duration for this controller. *)
Definition watchDuration : Z := 600.

(** ReconcileCloudMetrics reconciles a CloudMetrics object *)
Record ReconcileCloudMetrics := {
  client : @Client W
}.

(** The loop [for _, cr := range list.Items] logging what was found. *)
Fixpoint logFound (k : Kind) (items : list CR) : @M W unit :=
  match items with
  | [] => ret tt
  | cr :: items' =>
      logInfo ("Found " +:+ kindName k +:+ " cr: " +:+ v1alpha1.Name cr) ;;
      logFound k items'
  end.

(** The branch on [len(list.Items) > 0] around it. *)
Definition reportFound (k : Kind) (items : list CR) : @M W unit :=
  if (0 <? length items)%nat
  then logFound k items
  else logInfo ("Found no " +:+ kindName k +:+ " instances").

(** Reconcile reads all redis and postgres crs periodically and reconcile
    metrics for these resources. *)
Definition Reconcile (r : ReconcileCloudMetrics) (request : reconcile.Request)
  : @M W (reconcile.Result * option error) :=
  logInfo "Reconciling CloudMetrics" ;;
  (* Fetch all redis crs *)
  redisInstances <- listResources (client r) KRedis ;;
  match snd redisInstances with
  | Some err => ret (reconcile.zero, Some err)
  | None =>
      reportFound KRedis (fst redisInstances) ;;
      (* Fetch all postgres crs *)
      postgresInstances <- listResources (client r) KPostgres ;;
      match snd postgresInstances with
      | Some err => ret (reconcile.zero, Some err)
      | None =>
          reportFound KPostgres (fst postgresInstances) ;;
          (* Requeue every 5 minutes *)
          ret ({| reconcile.Requeue := false;
                  reconcile.RequeueAfter := watchDuration * time.Second |}, None)
      end
  end.

End Controller.

End part_000.

(** * Vocabulary of the properties *)

Section Vocabulary.
Context `{PackageConstants} {W : Type}.

Implicit Types (c : list CroGaugeMetric) (s : Sample) (l : list Sample).
Implicit Types (σ : @State W) (key : positive * list string).
Implicit Types (r : @ReconcileCloudMetrics W) (ps : list (@MetricsProvider W)).
Implicit Types (k : Kind) (evs : list Event).

(** ** The gauge publisher *)

(** An entry of the catalog matches the sample by name. *)
Definition matches (s : Sample) (cm : CroGaugeMetric) : bool :=
  String.eqb (providers.Name s) (Name cm).

(** Publishing [s] against [c] sets the series [key]: some matching entry
    owns the vector and the label values are those of the sample. *)
Definition writes c s key : bool :=
  existsb (fun cm => matches s cm && bool_decide (prometheus.addr (GaugeVec cm) = key.1)) c
  && bool_decide (labelValues s = key.2).

(** The value the last writing sample of [l] leaves in the series, [prev]
    when none writes. *)
Fixpoint lastWrite c l key (prev : option float) : option float :=
  match l with
  | [] => prev
  | s :: l' =>
      lastWrite c l' key (if writes c s key then Some (providers.Value s) else prev)
  end.

(** One turn of the inner loop, on the state. *)
Definition setSeries s (cm : CroGaugeMetric) σ : @State W :=
  if matches s cm
  then {| world := world σ;
          gauges := <[(prometheus.addr (GaugeVec cm), labelValues s) :=
                        providers.Value s]> (gauges σ) |}
  else σ.

(** The publisher in the words of the spec: a linear search of the catalog
    in which the first entry of the sample's name wins. *)
Fixpoint spec_publishFirstMatch c s σ : @State W :=
  match c with
  | [] => σ
  | cm :: c' => if matches s cm then setSeries s cm σ else spec_publishFirstMatch c' s σ
  end.

(** ** The scrape loops *)

(** The samples of the successful scrapes among [evs] whose kind [f] admits,
    in the order of the calls. *)
Definition scrapedBy (f : Kind -> bool) (ev : Event) : list Sample :=
  match ev with
  | EvScrape k _ _ (inr out) => if f k then providers.Metrics out else []
  | _ => []
  end.

Definition samplesWhere (f : Kind -> bool) evs : list Sample :=
  flat_map (scrapedBy f) evs.

Definition samplesOf evs : list Sample := samplesWhere (fun _ => true) evs.

Definition isKind k (k' : Kind) : bool :=
  match k, k' with
  | KRedis, KRedis | KPostgres, KPostgres => true
  | _, _ => false
  end.

Definition samplesOfKind k evs : list Sample := samplesWhere (isKind k) evs.

(** What the scrape loop of kind [k] over the providers [ps] may emit: log
    lines, and scrape calls of kind [k] that ask for the metric types of the
    resource's strategy and go to a provider supporting it. *)
Definition scrapeEv k ps (ev : Event) : Prop :=
  match ev with
  | EvScrape k' cr metricTypes _ =>
      k' = k /\
      metricTypes = metricTypesFor (catalog k) (v1alpha1.Strategy cr) [] /\
      exists p, p ∈ ps /\ SupportsStrategy p (v1alpha1.Strategy cr) = true
  | EvList _ _ _ => False
  | EvInfo _ | EvError _ => True
  end.

(** ** The stages of a pass *)

(** The runs of the six steps of [Reconcile] that follow one another when
    the pass is started in [σ]. *)
Definition redisListed r σ := listResources (client r) KRedis σ.

Definition redisScraped r σ :=
  scrapeInstances KRedis (redisProviderList r)
    (fst (result (redisListed r σ))) [] (final (redisListed r σ)).

Definition redisPublished r σ :=
  setGaugeMetrics redisGaugeMetrics
    (result (redisScraped r σ)) (final (redisScraped r σ)).

Definition postgresListed r σ :=
  listResources (client r) KPostgres (final (redisPublished r σ)).

Definition postgresScraped r σ :=
  scrapeInstances KPostgres (postgresProviderList r)
    (fst (result (postgresListed r σ))) (result (redisScraped r σ))
    (final (postgresListed r σ)).

Definition postgresPublished r σ :=
  setGaugeMetrics postgresGaugeMetrics
    (result (postgresScraped r σ)) (final (postgresScraped r σ)).

Definition listErrorLogged (err : option error) : list Event :=
  match err with
  | Some e => [EvError e]
  | None => []
  end.

(** An event of a pass: a scrape call asks for the metric types of the
    resource's strategy in the catalog of its kind, and goes to a provider of
    that kind supporting the strategy. *)
Definition passEv r (ev : Event) : Prop :=
  match ev with
  | EvScrape k cr metricTypes _ =>
      metricTypes = metricTypesFor (catalog k) (v1alpha1.Strategy cr) [] /\
      exists p, p ∈ providerList r k /\ SupportsStrategy p (v1alpha1.Strategy cr) = true
  | _ => True
  end.

Definition isLog (ev : Event) : Prop :=
  match ev with
  | EvInfo _ | EvError _ => True
  | _ => False
  end.

(** ** The calls of a pass *)

(** The kind and the resource of every scrape call among [evs], in order. *)
Definition scrapeCalls evs : list (Kind * CR) :=
  flat_map (fun ev => match ev with
                      | EvScrape k cr _ _ => [(k, cr)]
                      | _ => []
                      end) evs.

(** The kinds of the listing calls among [evs], in order. *)
Definition listCalls evs : list Kind :=
  flat_map (fun ev => match ev with
                      | EvList k _ _ => [k]
                      | _ => []
                      end) evs.

(** One call for every resource of [items] and every provider of [ps]
    supporting its strategy, resource by resource. *)
Definition callsDue k ps (items : list CR) : list (Kind * CR) :=
  flat_map
    (fun cr =>
       map (fun _ => (k, cr))
           (List.filter (fun p => SupportsStrategy p (v1alpha1.Strategy cr)) ps))
    items.

(** The scrape calls that the providers [ps], one after another, answer for
    [cr], each in the world the one before it left, and the world the last
    one leaves. *)
Fixpoint answers k ps cr (w : W) : list Event * W :=
  match ps with
  | [] => ([], w)
  | p :: ps' =>
      let metricTypes := metricTypesFor (catalog k) (v1alpha1.Strategy cr) [] in
      let '(res, w1) := ScrapeMetrics p cr metricTypes w in
      let '(evs, w2) := answers k ps' cr w1 in
      (EvScrape k cr metricTypes res :: evs, w2)
  end.

(** For every resource of [items] in turn, the calls answered by those of
    [ps] that support its strategy. *)
Fixpoint answersDue k ps (items : list CR) (w : W) : list Event * W :=
  match items with
  | [] => ([], w)
  | cr :: items' =>
      let '(evs1, w1) :=
        answers k (List.filter (fun p => SupportsStrategy p (v1alpha1.Strategy cr)) ps)
          cr w in
      let '(evs2, w2) := answersDue k ps items' w1 in
      (evs1 ++ evs2, w2)
  end.

(** The scrape calls among [evs], with what they asked and were answered. *)
Definition scrapeEvents evs : list Event :=
  List.filter (fun ev => match ev with
                         | EvScrape _ _ _ _ => true
                         | _ => false
                         end) evs.

End Vocabulary.

Section StartupVocabulary.
Context {Registry : Type}.
Variable MustRegister : Registry -> prometheus.GaugeVec -> option Registry.

(** Registering the vectors one after another: the registry holding them
    all, or [None] once one is refused. *)
Fixpoint registerAll (vecs : list prometheus.GaugeVec) (reg : Registry)
  : option Registry :=
  match vecs with
  | [] => Some reg
  | vec :: vecs' =>
      match MustRegister reg vec with
      | None => None
      | Some reg' => registerAll vecs' reg'
      end
  end.

(** The line logged ahead of a metric's registration. *)
Definition registeringLine (metric : CroGaugeMetric) : StartEvent :=
  SInfo ("registering metric: " +:+ Name metric +:+ " ").

End StartupVocabulary.

(** The lines the earlier controller logs for the listed resources. *)
Definition foundLines (k : Kind) (items : list CR) : list Event :=
  match items with
  | [] => [EvInfo ("Found no " +:+ kindName k +:+ " instances")]
  | _ :: _ =>
      map (fun cr => EvInfo ("Found " +:+ kindName k +:+ " cr: " +:+ v1alpha1.Name cr))
          items
  end.

(** * Clusters to run passes on *)

(** A catalog in which two entries carry one name, over two vectors. *)
Definition twoOfOneName : list CroGaugeMetric :=
  [ {| Name := "m";
       GaugeVec := NewGaugeVec 1 {| prometheus.Name := "m"; prometheus.Help := "" |} labels;
       ProviderType := ∅ |};
    {| Name := "m";
       GaugeVec := NewGaugeVec 2 {| prometheus.Name := "m2"; prometheus.Help := "" |} labels;
       ProviderType := ∅ |} ].

Definition sampleM : Sample :=
  {| providers.Name := "m";
     providers.Labels := {[ labelClusterIDKey := "c1" ]};
     providers.Value := 1%float |}.

Definition noGauges : @State unit := {| world := tt; gauges := ∅ |}.

Definition exampleConstants : PackageConstants := {|
  PostgresFreeStorageAverage := "free_storage_avg";
  PostgresCPUUtilizationAverage := "postgres_cpu_utilization_avg";
  PostgresFreeableMemoryAverage := "postgres_freeable_memory_avg";
  RedisMemoryUsagePercentageAverage := "redis_memory_usage_percentage_avg";
  RedisFreeableMemoryAverage := "redis_freeable_memory_avg";
  RedisCPUUtilizationAverage := "redis_cpu_utilization_avg";
  MetricsWatchDuration := 600000000000;
  GetMetricReconcileTimeOrDefault := fun d => d;
  AWSDeploymentStrategy := "aws";
  StatisticAverage := "Average"
|}.

Definition identityLabels : gmap string string :=
  {[ labelClusterIDKey := "c1"; labelResourceIDKey := "r1"; labelNamespaceKey := "ns1";
     labelInstanceIDKey := "i1"; labelProductNameKey := "p1" ]}.

Definition freeStorageSample : Sample :=
  {| providers.Name := "free_storage_avg";
     providers.Labels := <[ labelStrategyKey := "aws" ]> identityLabels;
     providers.Value := 4096%float |}.

Definition redisCPUSample : Sample :=
  {| providers.Name := "redis_cpu_utilization_avg";
     providers.Labels := <[ labelStrategyKey := "aws" ]> identityLabels;
     providers.Value := 12.5%float |}.

Definition resourceNamed (name strategy : string) : CR :=
  {| v1alpha1.Name := name; v1alpha1.Namespace := "ns1";
     v1alpha1.Labels := identityLabels; v1alpha1.Strategy := strategy |}.

(** A provider for the strategy "aws" whose scrape fails for the resource
    named "broken" and returns [freeStorageSample] for any other. *)
Definition awsProvider : @MetricsProvider unit :=
  {| SupportsStrategy := fun strategy => String.eqb strategy "aws";
     ScrapeMetrics := fun cr _ w =>
       if String.eqb (v1alpha1.Name cr) "broken"
       then (inl "throttled", w)
       else (inr {| providers.Metrics := [freeStorageSample] |}, w) |}.

(** A redis provider for "aws" returning a sample named as a redis entry. *)
Definition redisProvider : @MetricsProvider unit :=
  {| SupportsStrategy := fun strategy => String.eqb strategy "aws";
     ScrapeMetrics := fun _ _ w =>
       (inr {| providers.Metrics := [redisCPUSample] |}, w) |}.

Definition clientReturning (redis postgres : list CR * option error) : @Client unit :=
  {| ClientList := fun k w =>
       match k with
       | KRedis => (redis, w)
       | KPostgres => (postgres, w)
       end |}.

(** The redis listing fails while a postgres resource is there to scrape. *)
Definition redisListingFails : @ReconcileCloudMetrics unit :=
  {| client := clientReturning ([], Some "connection refused")
                 ([resourceNamed "pg1" "aws"], None);
     postgresProviderList := [awsProvider];
     redisProviderList := [awsProvider] |}.

(** Two redis resources, the scrape failing for the first; one postgres
    resource on a strategy no provider supports. *)
Definition oneScrapeFails : @ReconcileCloudMetrics unit :=
  {| client := clientReturning
                 ([resourceNamed "broken" "aws"; resourceNamed "cache2" "aws"], None)
                 ([resourceNamed "pg-gcp" "gcp"], None);
     postgresProviderList := [awsProvider];
     redisProviderList := [awsProvider] |}.

(** One postgres resource on "aws" and nothing else. *)
Definition onePostgres : @ReconcileCloudMetrics unit :=
  {| client := clientReturning ([], None) ([resourceNamed "pg1" "aws"], None);
     postgresProviderList := [awsProvider];
     redisProviderList := [] |}.

(** One redis resource, whose provider returns a sample under a postgres name. *)
Definition redisUnderPostgresName : @ReconcileCloudMetrics unit :=
  {| client := clientReturning ([resourceNamed "cache1" "aws"], None) ([], None);
     postgresProviderList := [awsProvider];
     redisProviderList := [awsProvider] |}.

(** One resource of each kind, each scraped under names of its own catalog. *)
Definition bothKinds : @ReconcileCloudMetrics unit :=
  {| client := clientReturning ([resourceNamed "cache1" "aws"], None)
                 ([resourceNamed "pg1" "aws"], None);
     postgresProviderList := [awsProvider];
     redisProviderList := [redisProvider] |}.

Definition anyRequest : reconcile.Request :=
  {| reconcile.Namespace := ""; reconcile.Name := "" |}.

(** A registry by the names of the vectors it holds, refusing a name it
    holds already. *)
Definition registerByName (reg : list string) (vec : prometheus.GaugeVec)
  : option (list string) :=
  if existsb (String.eqb (prometheus.Name (prometheus.opts vec))) reg
  then None
  else Some (prometheus.Name (prometheus.opts vec) :: reg).

Definition exampleManager : @Manager unit :=
  {| GetClient := clientReturning ([resourceNamed "cache1" "aws";
                                    resourceNamed "cache-gcp" "gcp"], None)
                                  ([resourceNamed "pg1" "aws"], None) |}.

(** A runtime in which the controller is created and the watch is set up. *)
Definition controllerCreated (name : string) (mgr : @Manager unit)
    (r : @ReconcileCloudMetrics unit) (mw : unit) : (error + unit) * unit :=
  (inr tt, mw).

Definition watchSetUp (c : unit) (mw : unit) : option error * unit := (None, mw).

(** The earlier controller over a cluster with two redis resources and no
    postgres one, and over one whose postgres listing fails. *)
Definition earlierOverTwoRedis : @part_000.ReconcileCloudMetrics unit :=
  {| part_000.client :=
       clientReturning ([resourceNamed "cache1" "aws"; resourceNamed "cache2" "aws"], None)
                       ([], None) |}.

Definition earlierPostgresFails : @part_000.ReconcileCloudMetrics unit :=
  {| part_000.client :=
       clientReturning ([resourceNamed "cache1" "aws"], None)
                       ([], Some "connection refused") |}.


(** Samples named "m": one for another cluster, one carrying a label
    besides the six. *)
Definition sampleMOtherCluster : Sample :=
  {| providers.Name := "m";
     providers.Labels := {[ labelClusterIDKey := "c2" ]};
     providers.Value := 2%float |}.


(** A pass whose only scrape call fails. *)
Definition everyScrapeFails : @ReconcileCloudMetrics unit :=
  {| client := clientReturning ([resourceNamed "broken" "aws"], None) ([], None);
     postgresProviderList := [awsProvider];
     redisProviderList := [awsProvider] |}.



(** A world that records every call made to the outside, in order. *)
Definition namedProvider (name strategy : string) : @MetricsProvider (list string) :=
  {| SupportsStrategy := fun s => String.eqb s strategy;
     ScrapeMetrics := fun cr _ w =>
       (inr {| providers.Metrics := [] |},
        w ++ [name +:+ " scrapes " +:+ v1alpha1.Name cr]) |}.

Definition recordingClient (redis postgres : list CR * option error)
  : @Client (list string) :=
  {| ClientList := fun k w =>
       match k with
       | KRedis => (redis, w ++ ["list redis"])
       | KPostgres => (postgres, w ++ ["list postgres"])
       end |}.

(** Two redis resources, on "aws" and on "gcp", with three redis providers;
    one postgres resource on "aws" with two postgres providers. *)
Definition recordedCluster : @ReconcileCloudMetrics (list string) :=
  {| client := recordingClient
                 ([resourceNamed "cache1" "aws"; resourceNamed "cache2" "gcp"], None)
                 ([resourceNamed "pg1" "aws"], None);
     postgresProviderList := [namedProvider "P" "aws"; namedProvider "Q" "gcp"];
     redisProviderList := [namedProvider "A" "aws"; namedProvider "B" "gcp";
                           namedProvider "C" "aws"] |}.

Definition nothingRecorded : @State (list string) := {| world := []; gauges := ∅ |}.

(** * Properties *)

(** ** The gauge publisher *)

Section Publisher.
Context {W : Type}.

Implicit Types (c : list CroGaugeMetric) (s : Sample) (l : list Sample).
Implicit Types (σ : @State W) (key : positive * list string).

Lemma setGaugeMetric_cons cm c s σ :
  final (setGaugeMetric (cm :: c) s σ) = final (setGaugeMetric c s (setSeries s cm σ)).
Proof.
  cbn [setGaugeMetric]. unfold bind, setSeries, matches.
  destruct (String.eqb _ _); cbn;
    match goal with |- context [setGaugeMetric c s ?σ'] =>
      destruct (setGaugeMetric c s σ') as [[u σ''] ev] end; reflexivity.
Qed.

Lemma setGaugeMetric_world c s σ :
  world (final (setGaugeMetric c s σ)) = world σ.
Proof.
  revert σ. induction c as [|cm c IH]; intros σ; [reflexivity|].
  rewrite setGaugeMetric_cons, IH. unfold setSeries.
  destruct (matches s cm); reflexivity.
Qed.

Lemma setGaugeMetric_lookup c s σ key :
  gauges (final (setGaugeMetric c s σ)) !! key =
  if writes c s key then Some (providers.Value s) else gauges σ !! key.
Proof.
  revert σ. induction c as [|cm c IH]; intros σ; [reflexivity|].
  rewrite setGaugeMetric_cons, IH. unfold writes, setSeries. cbn [existsb].
  destruct key as [a lvs]; cbn [fst snd].
  destruct (existsb _ c); cbn.
  { rewrite orb_true_r. cbn. case_bool_decide; [reflexivity|].
    destruct (matches s cm); [|reflexivity]. cbn.
    apply lookup_insert_ne. congruence. }
  rewrite orb_false_r.
  destruct (matches s cm); [|reflexivity]. cbn.
  repeat case_bool_decide; subst; cbn.
  - apply lookup_insert_eq.
  - apply lookup_insert_ne. congruence.
  - apply lookup_insert_ne. congruence.
  - apply lookup_insert_ne. congruence.
Qed.

Lemma setGaugeMetrics_world c l σ :
  world (final (setGaugeMetrics c l σ)) = world σ.
Proof.
  revert σ. induction l as [|s l IH]; intros σ; [reflexivity|].
  cbn [setGaugeMetrics]. unfold bind.
  pose proof (setGaugeMetric_world c s σ) as Hw.
  destruct (setGaugeMetric c s σ) as [[u σ1] e1]. cbn in Hw.
  specialize (IH σ1). destruct (setGaugeMetrics c l σ1) as [[u2 σ2] e2].
  cbn in *. congruence.
Qed.

Lemma setGaugeMetrics_lookup c l σ key :
  gauges (final (setGaugeMetrics c l σ)) !! key = lastWrite c l key (gauges σ !! key).
Proof.
  revert σ. induction l as [|s l IH]; intros σ; [reflexivity|].
  cbn [setGaugeMetrics lastWrite]. unfold bind.
  pose proof (setGaugeMetric_lookup c s σ key) as Hs.
  destruct (setGaugeMetric c s σ) as [[u σ1] e1]. cbn in Hs.
  specialize (IH σ1). destruct (setGaugeMetrics c l σ1) as [[u2 σ2] e2].
  cbn in *. rewrite IH, Hs. reflexivity.
Qed.

(** The gauges after publishing depend on the gauges before only. *)
Lemma setGaugeMetrics_gauges_congr c l σ1 σ2 :
  gauges σ1 = gauges σ2 ->
  gauges (final (setGaugeMetrics c l σ1)) = gauges (final (setGaugeMetrics c l σ2)).
Proof.
  intros Hg. apply map_eq; intros key.
  rewrite !setGaugeMetrics_lookup, Hg. reflexivity.
Qed.

Lemma lastWrite_app c l1 l2 key prev :
  lastWrite c (l1 ++ l2) key prev = lastWrite c l2 key (lastWrite c l1 key prev).
Proof.
  revert prev. induction l1 as [|s l1 IH]; intros prev; [reflexivity|].
  cbn. apply IH.
Qed.

Lemma lastWrite_prev c l key prev :
  lastWrite c l key prev =
  match lastWrite c l key None with Some v => Some v | None => prev end.
Proof.
  revert prev. induction l as [|s l IH]; intros prev; [reflexivity|].
  cbn. destruct (writes c s key).
  - rewrite (IH (Some _)). destruct (lastWrite c l key None); reflexivity.
  - apply IH.
Qed.

Lemma writes_unmatched c s key :
  (forall cm, cm ∈ c -> providers.Name s <> Name cm) -> writes c s key = false.
Proof.
  intros Hno. unfold writes.
  replace (existsb _ c) with false; [reflexivity|].
  symmetry. apply not_true_is_false. intros Hex.
  apply existsb_exists in Hex as (cm & Hin & Hm).
  apply andb_true_iff in Hm as [Hm _]. apply String.eqb_eq in Hm.
  apply (Hno cm); [by apply list_elem_of_In | exact Hm].
Qed.

Lemma lastWrite_unmatched c l key prev :
  (forall s cm, s ∈ l -> cm ∈ c -> providers.Name s <> Name cm) ->
  lastWrite c l key prev = prev.
Proof.
  revert prev. induction l as [|s l IH]; intros prev Hno; [reflexivity|].
  cbn. rewrite writes_unmatched.
  - apply IH. intros s' cm Hs'. apply Hno. by right.
  - intros cm. apply Hno. by left.
Qed.

Lemma setGaugeMetric_unmatched c s σ :
  (forall cm, cm ∈ c -> providers.Name s <> Name cm) ->
  setGaugeMetric c s σ = (tt, σ, []).
Proof.
  induction c as [|cm c IH]; intros Hno; [reflexivity|].
  cbn [setGaugeMetric]. unfold bind.
  destruct (String.eqb_spec (providers.Name s) (Name cm)) as [Heq|_].
  - exfalso. apply (Hno cm); [by left | exact Heq].
  - cbn. rewrite IH; [reflexivity|]. intros cm' Hin. apply Hno. by right.
Qed.

Lemma setGaugeMetrics_app c l1 l2 σ :
  setGaugeMetrics c (l1 ++ l2) σ =
  bind (setGaugeMetrics c l1) (fun _ => setGaugeMetrics c l2) σ.
Proof.
  revert σ. induction l1 as [|s l1 IH]; intros σ.
  - cbn. unfold bind. cbn. destruct (setGaugeMetrics c l2 σ) as [[[] σ2] e2].
    reflexivity.
  - cbn [app setGaugeMetrics]. unfold bind in *.
    destruct (setGaugeMetric c s σ) as [[u σ1] e1]. rewrite IH.
    destruct (setGaugeMetrics c l1 σ1) as [[u1 σ2] e2].
    destruct (setGaugeMetrics c l2 σ2) as [[u2 σ3] e3].
    rewrite app_assoc. reflexivity.
Qed.

Lemma setGaugeMetrics_idempotent c l σ :
  gauges (final (setGaugeMetrics c l (final (setGaugeMetrics c l σ)))) =
  gauges (final (setGaugeMetrics c l σ)).
Proof.
  apply map_eq; intros key. rewrite !setGaugeMetrics_lookup.
  rewrite (lastWrite_prev c l key (lastWrite _ _ _ _)).
  rewrite (lastWrite_prev c l key (gauges σ !! key)).
  destruct (lastWrite c l key None); reflexivity.
Qed.

Lemma setGaugeMetric_unique_name c s σ :
  NoDup (map Name c) ->
  final (setGaugeMetric c s σ) = spec_publishFirstMatch c s σ.
Proof.
  revert σ. induction c as [|cm c IH]; intros σ Hnd; [reflexivity|].
  apply NoDup_cons in Hnd as [Hnotin Hnd].
  rewrite setGaugeMetric_cons. cbn [spec_publishFirstMatch].
  destruct (matches s cm) eqn:Hm.
  - rewrite setGaugeMetric_unmatched; [reflexivity|].
    intros cm' Hin Heq. apply String.eqb_eq in Hm. apply Hnotin.
    rewrite <- Hm, Heq. apply list_elem_of_fmap. eauto.
  - rewrite IH by exact Hnd. unfold setSeries. rewrite Hm. reflexivity.
Qed.

End Publisher.

Section PublisherClaims.
Context {W : Type}.

Implicit Types (c : list CroGaugeMetric) (s : Sample) (l : list Sample).
Implicit Types (σ : @State W).

(** C5: a sample whose name is the name of no entry of the catalog handed
    to [setGaugeMetrics] is dropped: publishing it changes no gauge, emits
    nothing and raises nothing, and among other samples it may as well be
    absent. *)
Theorem unmatched_sample_dropped c s σ :
  (forall cm, cm ∈ c -> Name cm <> providers.Name s) ->
  setGaugeMetrics c [s] σ = (tt, σ, []) /\
  forall l1 l2, setGaugeMetrics c (l1 ++ s :: l2) σ = setGaugeMetrics c (l1 ++ l2) σ.
Proof.
  intros Hno.
  assert (Hs : forall σ', setGaugeMetric c s σ' = (tt, σ', [])).
  { intros σ'. apply setGaugeMetric_unmatched. intros cm Hin Heq.
    apply (Hno cm Hin). symmetry. exact Heq. }
  split.
  - cbn. unfold bind. rewrite Hs. reflexivity.
  - intros l1 l2. rewrite !setGaugeMetrics_app. unfold bind.
    destruct (setGaugeMetrics c l1 σ) as [[u σ1] e1].
    cbn [setGaugeMetrics]. unfold bind. rewrite Hs.
    destruct (setGaugeMetrics c l2 σ1) as [[u2 σ2] e2]. reflexivity.
Qed.

(** C6: publishing is idempotent: two consecutive calls of [setGaugeMetrics]
    with the same catalog and the same sample leave the gauges exactly as one
    call does. *)
Theorem publish_idempotent c s σ :
  gauges (final (setGaugeMetrics c [s] (final (setGaugeMetrics c [s] σ)))) =
  gauges (final (setGaugeMetrics c [s] σ)).
Proof. apply setGaugeMetrics_idempotent. Qed.

(** C7, as amended: [setGaugeMetrics] searches the whole catalog, and every
    entry of the sample's name, not the first one only, has its series of the
    sample's six label values set to the sample's value, over any value it
    had; no other series changes.  When no two entries share a name this is
    the first-match search of the spec. *)
Theorem every_matching_entry_set c s σ :
  (forall cm, cm ∈ c -> Name cm = providers.Name s ->
     gauges (final (setGaugeMetrics c [s] σ))
       !! (prometheus.addr (GaugeVec cm), labelValues s) = Some (providers.Value s)) /\
  (forall a lvs,
     (lvs <> labelValues s \/
      forall cm, cm ∈ c -> Name cm = providers.Name s -> prometheus.addr (GaugeVec cm) <> a) ->
     gauges (final (setGaugeMetrics c [s] σ)) !! (a, lvs) = gauges σ !! (a, lvs)) /\
  (NoDup (map Name c) ->
     gauges (final (setGaugeMetrics c [s] σ)) = gauges (spec_publishFirstMatch c s σ)).
Proof.
  split; [|split].
  - intros cm Hin Hname. rewrite setGaugeMetrics_lookup. cbn [lastWrite].
    replace (writes c s _) with true; [reflexivity|].
    symmetry. unfold writes. cbn [fst snd].
    rewrite bool_decide_eq_true_2 by reflexivity. rewrite andb_true_r.
    apply existsb_exists. exists cm. split; [by apply list_elem_of_In|].
    unfold matches. rewrite Hname, String.eqb_refl.
    rewrite bool_decide_eq_true_2; reflexivity.
  - intros a lvs Hother. rewrite setGaugeMetrics_lookup. cbn [lastWrite].
    replace (writes c s _) with false; [reflexivity|].
    symmetry. apply not_true_is_false. unfold writes. cbn [fst snd].
    intros Hw. apply andb_true_iff in Hw as [Hex Hl].
    apply bool_decide_eq_true_1 in Hl.
    apply existsb_exists in Hex as (cm & Hin & Hm).
    apply andb_true_iff in Hm as [Hm Ha].
    apply bool_decide_eq_true_1 in Ha. apply String.eqb_eq in Hm.
    destruct Hother as [Hne|Hne]; [congruence|].
    apply (Hne cm); [by apply list_elem_of_In | congruence | exact Ha].
  - intros Hnd. rewrite <- (setGaugeMetric_unique_name c s σ Hnd).
    cbn [setGaugeMetrics]. unfold bind.
    destruct (setGaugeMetric c s σ) as [[u σ1] e1]. reflexivity.
Qed.

End PublisherClaims.

(** C5, at a sample named as no entry of [twoOfOneName]. *)
Lemma unmatched_sample_dropped_witness :
  setGaugeMetrics twoOfOneName
    [ {| providers.Name := "other"; providers.Labels := ∅; providers.Value := 2%float |} ]
    noGauges = (tt, noGauges, []).
Proof.
  apply (unmatched_sample_dropped twoOfOneName
           {| providers.Name := "other"; providers.Labels := ∅; providers.Value := 2%float |}
           noGauges).
  intros cm Hin. unfold twoOfOneName in Hin.
  apply list_elem_of_In in Hin. cbn in Hin.
  destruct Hin as [<-|[<-|[]]]; cbn; discriminate.
Defined.

(** C7 as the spec words it fails: with two entries of one name the second
    vector is set too, which a first-match search leaves alone. *)
Lemma first_match_wins_counterexample :
  gauges (final (setGaugeMetrics twoOfOneName [sampleM] noGauges)) <>
  gauges (spec_publishFirstMatch twoOfOneName sampleM noGauges).
Proof.
  intros Heq.
  apply (f_equal (fun g => g !! (2%positive, labelValues sampleM))) in Heq.
  vm_compute in Heq. discriminate Heq.
Qed.

(** C7 as amended, at [twoOfOneName]: the second entry's series is set. *)
Lemma every_matching_entry_set_witness :
  gauges (final (setGaugeMetrics twoOfOneName [sampleM] noGauges))
    !! (2%positive, labelValues sampleM) = Some 1%float.
Proof.
  apply (proj1 (every_matching_entry_set twoOfOneName sampleM noGauges)
           {| Name := "m";
              GaugeVec := NewGaugeVec 2 {| prometheus.Name := "m2"; prometheus.Help := "" |} labels;
              ProviderType := ∅ |}).
  - unfold twoOfOneName. apply list_elem_of_In. right. left. reflexivity.
  - reflexivity.
Defined.

(** ** The scrape loops *)

Section Scraping.
Context `{PackageConstants} {W : Type}.

Implicit Types (σ : @State W) (ps : list (@MetricsProvider W)) (evs : list Event).
Implicit Types (k : Kind) (cr : CR) (acc : list Sample).

Lemma bind_result {A B} (m : @M W A) (f : A -> @M W B) σ :
  result (bind m f σ) = result (f (result (m σ)) (final (m σ))).
Proof.
  unfold bind. destruct (m σ) as [[a σ1] e1]. cbn.
  destruct (f a σ1) as [[b σ2] e2]. reflexivity.
Qed.

Lemma bind_final {A B} (m : @M W A) (f : A -> @M W B) σ :
  final (bind m f σ) = final (f (result (m σ)) (final (m σ))).
Proof.
  unfold bind. destruct (m σ) as [[a σ1] e1]. cbn.
  destruct (f a σ1) as [[b σ2] e2]. reflexivity.
Qed.

Lemma bind_events {A B} (m : @M W A) (f : A -> @M W B) σ :
  events (bind m f σ) = events (m σ) ++ events (f (result (m σ)) (final (m σ))).
Proof.
  unfold bind. destruct (m σ) as [[a σ1] e1]. cbn.
  destruct (f a σ1) as [[b σ2] e2]. reflexivity.
Qed.

Lemma scrapeEv_cons k p ps ev : scrapeEv k ps ev -> scrapeEv k (p :: ps) ev.
Proof.
  destruct ev; cbn; try tauto.
  intros (-> & -> & q & Hq & Hs). repeat split. exists q. split; [by right | exact Hs].
Qed.

Lemma samplesWhere_app f evs1 evs2 :
  samplesWhere f (evs1 ++ evs2) = samplesWhere f evs1 ++ samplesWhere f evs2.
Proof. apply flat_map_app. Qed.

Lemma samplesWhere_scrapeEv f k ps evs :
  Forall (scrapeEv k ps) evs ->
  samplesWhere f evs = if f k then samplesOf evs else [].
Proof.
  induction 1 as [|ev evs Hev _ IH].
  - cbn. destruct (f k); reflexivity.
  - change (scrapedBy f ev ++ samplesWhere f evs =
            if f k then scrapedBy (fun _ => true) ev ++ samplesOf evs else []).
    rewrite IH.
    destruct ev as [| | |k' cr tys [e|out]]; cbn in *;
      try (destruct (f k); reflexivity).
    destruct Hev as (-> & _). destruct (f k); reflexivity.
Qed.

(** The three ways one turn of the provider loop can go. *)
Lemma scrapeProviders_skip k p ps cr acc σ :
  SupportsStrategy p (v1alpha1.Strategy cr) = false ->
  scrapeProviders k (p :: ps) cr acc σ = scrapeProviders k ps cr acc σ.
Proof. intros Hsup. cbn [scrapeProviders]. rewrite Hsup. reflexivity. Qed.

Lemma scrapeProviders_failed k p ps cr acc σ e w :
  SupportsStrategy p (v1alpha1.Strategy cr) = true ->
  ScrapeMetrics p cr (metricTypesFor (catalog k) (v1alpha1.Strategy cr) []) (world σ)
    = (inl e, w) ->
  scrapeProviders k (p :: ps) cr acc σ =
  let x := scrapeProviders k ps cr acc {| world := w; gauges := gauges σ |} in
  (result x, final x,
   EvScrape k cr (metricTypesFor (catalog k) (v1alpha1.Strategy cr) []) (inl e)
   :: EvError ("failed to scrape metrics for " +:+ kindName k +:+ " " +:+ e)
   :: events x).
Proof.
  intros Hsup Hcall. cbn [scrapeProviders]. rewrite Hsup. cbn [negb].
  unfold bind, scrape, logError. rewrite Hcall. cbn.
  destruct (scrapeProviders k ps cr acc _) as [[a σ2] e2]. reflexivity.
Qed.

Lemma scrapeProviders_scraped k p ps cr acc σ out w :
  SupportsStrategy p (v1alpha1.Strategy cr) = true ->
  ScrapeMetrics p cr (metricTypesFor (catalog k) (v1alpha1.Strategy cr) []) (world σ)
    = (inr out, w) ->
  scrapeProviders k (p :: ps) cr acc σ =
  let x := scrapeProviders k ps cr (acc ++ providers.Metrics out)
             {| world := w; gauges := gauges σ |} in
  (result x, final x,
   EvScrape k cr (metricTypesFor (catalog k) (v1alpha1.Strategy cr) []) (inr out)
   :: events x).
Proof.
  intros Hsup Hcall. cbn [scrapeProviders]. rewrite Hsup. cbn [negb].
  unfold bind, scrape. rewrite Hcall. cbn.
  destruct (scrapeProviders k ps cr _ _) as [[a σ2] e2]. reflexivity.
Qed.

Lemma scrapeProviders_spec k ps cr acc σ :
  result (scrapeProviders k ps cr acc σ) =
    acc ++ samplesOf (events (scrapeProviders k ps cr acc σ)) /\
  gauges (final (scrapeProviders k ps cr acc σ)) = gauges σ /\
  Forall (scrapeEv k ps) (events (scrapeProviders k ps cr acc σ)).
Proof.
  revert acc σ. induction ps as [|p ps IH]; intros acc σ.
  { cbn. rewrite app_nil_r. auto. }
  destruct (SupportsStrategy p (v1alpha1.Strategy cr)) eqn:Hsup; cycle 1.
  { rewrite scrapeProviders_skip by exact Hsup.
    destruct (IH acc σ) as (Hr & Hg & Hev). repeat split; try assumption.
    eapply Forall_impl; [exact Hev|]. intros ev. apply scrapeEv_cons. }
  assert (Hhere : forall res,
    scrapeEv k (p :: ps)
      (EvScrape k cr (metricTypesFor (catalog k) (v1alpha1.Strategy cr) []) res)).
  { intros res. cbn. repeat split. exists p. split; [by left | exact Hsup]. }
  destruct (ScrapeMetrics p cr (metricTypesFor (catalog k) (v1alpha1.Strategy cr) [])
              (world σ)) as [[e|out] w] eqn:Hcall.
  - rewrite (scrapeProviders_failed _ _ _ _ _ _ _ _ Hsup Hcall).
    cbn [result final events fst snd].
    destruct (IH acc {| world := w; gauges := gauges σ |}) as (Hr & Hg & Hev).
    repeat split.
    + rewrite Hr at 1. reflexivity.
    + rewrite Hg. reflexivity.
    + constructor; [apply Hhere|]. constructor; [exact I|].
      eapply Forall_impl; [exact Hev|]. intros ev. apply scrapeEv_cons.
  - rewrite (scrapeProviders_scraped _ _ _ _ _ _ _ _ Hsup Hcall).
    cbn [result final events fst snd].
    destruct (IH (acc ++ providers.Metrics out) {| world := w; gauges := gauges σ |})
      as (Hr & Hg & Hev).
    repeat split.
    + rewrite Hr at 1. rewrite <- app_assoc. reflexivity.
    + rewrite Hg. reflexivity.
    + constructor; [apply Hhere|].
      eapply Forall_impl; [exact Hev|]. intros ev. apply scrapeEv_cons.
Qed.

Lemma scrapeInstances_cons k ps cr items acc σ :
  scrapeInstances k ps (cr :: items) acc σ =
  let x := scrapeProviders k ps cr acc σ in
  let y := scrapeInstances k ps items (result x) (final x) in
  (result y, final y,
   EvInfo ("beginning to scrape metrics for " +:+ kindName k +:+ " cr: "
           +:+ v1alpha1.Name cr)
   :: events x ++ events y).
Proof.
  cbn [scrapeInstances]. unfold bind, logInfo.
  destruct (scrapeProviders k ps cr acc σ) as [[a σ1] e1]. cbn.
  destruct (scrapeInstances k ps items a σ1) as [[b σ2] e2]. reflexivity.
Qed.

Lemma samplesOf_cons ev evs :
  samplesOf (ev :: evs) = scrapedBy (fun _ => true) ev ++ samplesOf evs.
Proof. reflexivity. Qed.

Lemma scrapeInstances_spec k ps items acc σ :
  result (scrapeInstances k ps items acc σ) =
    acc ++ samplesOf (events (scrapeInstances k ps items acc σ)) /\
  gauges (final (scrapeInstances k ps items acc σ)) = gauges σ /\
  Forall (scrapeEv k ps) (events (scrapeInstances k ps items acc σ)).
Proof.
  revert acc σ. induction items as [|cr items IH]; intros acc σ.
  { cbn. rewrite app_nil_r. auto. }
  rewrite scrapeInstances_cons. cbn [result final events fst snd].
  destruct (scrapeProviders_spec k ps cr acc σ) as (Hr1 & Hg1 & Hev1).
  destruct (IH (result (scrapeProviders k ps cr acc σ))
               (final (scrapeProviders k ps cr acc σ))) as (Hr & Hg & Hev).
  repeat split.
  - rewrite Hr at 1. rewrite Hr1 at 1. rewrite <- app_assoc.
    rewrite samplesOf_cons. cbn [scrapedBy app].
    unfold samplesOf. rewrite samplesWhere_app. reflexivity.
  - rewrite Hg, Hg1. reflexivity.
  - constructor; [exact I|]. apply Forall_app. split; assumption.
Qed.

End Scraping.

(** ** The stages of a pass *)

Section Pass.
Context `{PackageConstants} {W : Type}.

Implicit Types (r : @ReconcileCloudMetrics W) (σ : @State W) (req : reconcile.Request).

Lemma run_eq {A} (x : A * @State W * list Event) a σ evs :
  result x = a -> final x = σ -> events x = evs -> x = (a, σ, evs).
Proof. destruct x as [[a' σ'] evs']. cbn. congruence. Qed.

Lemma Reconcile_redis_list_failed r req σ e :
  snd (result (redisListed r σ)) = Some e ->
  Reconcile r req σ =
  ((reconcile.zero, Some e), final (redisListed r σ),
   EvInfo "reconciling CloudMetrics" :: events (redisListed r σ)).
Proof.
  intros Herr. unfold redisListed in *. unfold Reconcile.
  apply run_eq.
  - rewrite !bind_result. cbn [logInfo result final fst snd]. rewrite Herr. reflexivity.
  - rewrite !bind_final. cbn [logInfo result final fst snd]. rewrite Herr. reflexivity.
  - rewrite !bind_events. cbn [logInfo result final events fst snd]. rewrite Herr.
    cbn. rewrite app_nil_r. reflexivity.
Qed.

Lemma Reconcile_stages r req σ :
  snd (result (redisListed r σ)) = None ->
  Reconcile r req σ =
  ((requeue, None), final (postgresPublished r σ),
   EvInfo "reconciling CloudMetrics"
   :: events (redisListed r σ) ++ events (redisScraped r σ)
   ++ events (redisPublished r σ) ++ events (postgresListed r σ)
   ++ listErrorLogged (snd (result (postgresListed r σ)))
   ++ events (postgresScraped r σ) ++ events (postgresPublished r σ)).
Proof.
  intros Herr.
  unfold postgresPublished, postgresScraped, postgresListed, redisPublished,
    redisScraped, redisListed in *.
  unfold Reconcile.
  apply run_eq.
  - rewrite !bind_result. cbn [logInfo result final fst snd]. rewrite Herr.
    repeat (rewrite ?bind_result, ?bind_final; cbn beta). reflexivity.
  - rewrite !bind_final. cbn [logInfo result final fst snd]. rewrite Herr.
    repeat (rewrite ?bind_result, ?bind_final; cbn beta).
    destruct (snd (result (listResources (client r) KPostgres _))); reflexivity.
  - rewrite !bind_events. cbn [logInfo result final events fst snd]. rewrite Herr.
    repeat (rewrite ?bind_result, ?bind_final, ?bind_events; cbn beta).
    destruct (snd (result (listResources (client r) KPostgres _)));
      cbn; rewrite ?app_nil_r; reflexivity.
Qed.

Lemma scrapeEv_passEv r k ev : scrapeEv k (providerList r k) ev -> passEv r ev.
Proof. destruct ev; cbn; try tauto. intros (-> & Ht & Hp). auto. Qed.

Lemma isLog_passEv r ev : isLog ev -> passEv r ev.
Proof. destruct ev; cbn; tauto. Qed.

Lemma samplesWhere_logs f (evs : list Event) :
  Forall isLog evs -> samplesWhere f evs = [].
Proof.
  induction 1 as [|ev evs Hev _ IH]; [reflexivity|].
  change (scrapedBy f ev ++ samplesWhere f evs = []). rewrite IH.
  destruct ev; cbn in *; try reflexivity; contradiction.
Qed.

Lemma listResources_events (c : @Client W) k σ :
  events (listResources c k σ) =
  [EvList k (fst (result (listResources c k σ))) (snd (result (listResources c k σ)))].
Proof. unfold listResources. destruct (ClientList c k (world σ)). reflexivity. Qed.

Lemma listResources_gauges (c : @Client W) k σ :
  gauges (final (listResources c k σ)) = gauges σ.
Proof. unfold listResources. destruct (ClientList c k (world σ)). reflexivity. Qed.

Lemma setGaugeMetric_events c s σ : Forall isLog (events (setGaugeMetric c s σ)).
Proof.
  revert σ. induction c as [|cm c IH]; intros σ; [constructor|].
  cbn [setGaugeMetric]. rewrite bind_events. apply Forall_app. split; [|apply IH].
  destruct (String.eqb _ _); [|constructor].
  rewrite bind_events. cbn. repeat constructor.
Qed.

Lemma setGaugeMetrics_events c l σ : Forall isLog (events (setGaugeMetrics c l σ)).
Proof.
  revert σ. induction l as [|s l IH]; intros σ; [constructor|].
  cbn [setGaugeMetrics]. rewrite bind_events. apply Forall_app.
  split; [apply setGaugeMetric_events | apply IH].
Qed.

Lemma listErrorLogged_logs err : Forall isLog (listErrorLogged err).
Proof. destruct err; repeat constructor. Qed.

Lemma redisPublished_logs r σ : Forall isLog (events (redisPublished r σ)).
Proof. apply setGaugeMetrics_events. Qed.

Lemma postgresPublished_logs r σ : Forall isLog (events (postgresPublished r σ)).
Proof. apply setGaugeMetrics_events. Qed.

(** The samples of a pass: those of the redis loop, then those of the
    postgres loop. *)
Lemma Reconcile_samplesWhere f r req σ :
  snd (result (redisListed r σ)) = None ->
  samplesWhere f (events (Reconcile r req σ)) =
  (if f KRedis then result (redisScraped r σ) else []) ++
  (if f KPostgres then samplesOf (events (postgresScraped r σ)) else []).
Proof.
  intros Herr. rewrite (Reconcile_stages r req σ Herr). cbn [events snd].
  change (samplesWhere f (?e :: ?l)) with (scrapedBy f e ++ samplesWhere f l).
  cbn [scrapedBy app]. rewrite !samplesWhere_app.
  unfold redisListed, postgresListed at 1. rewrite !listResources_events.
  destruct (scrapeInstances_spec KRedis (redisProviderList r)
              (fst (result (redisListed r σ))) [] (final (redisListed r σ)))
    as (HrR & _ & HevR).
  destruct (scrapeInstances_spec KPostgres (postgresProviderList r)
              (fst (result (postgresListed r σ))) (result (redisScraped r σ))
              (final (postgresListed r σ)))
    as (_ & _ & HevP).
  fold (redisScraped r σ) in HrR, HevR. fold (postgresScraped r σ) in HevP.
  rewrite (samplesWhere_scrapeEv f _ _ _ HevR), (samplesWhere_scrapeEv f _ _ _ HevP).
  rewrite (samplesWhere_logs f _ (redisPublished_logs r σ)).
  rewrite (samplesWhere_logs f _ (listErrorLogged_logs _)).
  rewrite (samplesWhere_logs f _ (postgresPublished_logs r σ)).
  cbn [samplesWhere flat_map scrapedBy app]. rewrite app_nil_r.
  rewrite HrR at 1. reflexivity.
Qed.

Lemma Reconcile_failed_samplesWhere f r req σ e :
  snd (result (redisListed r σ)) = Some e ->
  samplesWhere f (events (Reconcile r req σ)) = [].
Proof.
  intros Herr. rewrite (Reconcile_redis_list_failed r req σ e Herr). cbn [events snd].
  unfold redisListed. rewrite listResources_events. reflexivity.
Qed.


(** The samples of the successful scrapes of a pass are those of the redis
    calls followed by those of the postgres calls. *)
Lemma Reconcile_samplesOf r req σ :
  samplesOf (events (Reconcile r req σ)) =
  samplesOfKind KRedis (events (Reconcile r req σ)) ++
  samplesOfKind KPostgres (events (Reconcile r req σ)).
Proof.
  unfold samplesOf, samplesOfKind.
  destruct (snd (result (redisListed r σ))) as [e|] eqn:Herr.
  - rewrite !(Reconcile_failed_samplesWhere _ r req σ e Herr). reflexivity.
  - rewrite !(Reconcile_samplesWhere _ r req σ Herr). cbn.
    rewrite !app_nil_r. reflexivity.
Qed.

(** The gauges after a pass: the samples of the redis calls published
    against the redis catalog, then all samples of the pass published against
    the postgres catalog. *)
Lemma Reconcile_gauges r req σ :
  gauges (final (Reconcile r req σ)) =
  gauges (final (setGaugeMetrics postgresGaugeMetrics
                   (samplesOf (events (Reconcile r req σ)))
                   (final (setGaugeMetrics redisGaugeMetrics
                             (samplesOfKind KRedis (events (Reconcile r req σ))) σ)))).
Proof.
  unfold samplesOf, samplesOfKind.
  destruct (snd (result (redisListed r σ))) as [e|] eqn:Herr.
  - rewrite !(Reconcile_failed_samplesWhere _ r req σ e Herr).
    rewrite (Reconcile_redis_list_failed r req σ e Herr). cbn [final fst snd].
    unfold redisListed. rewrite listResources_gauges. reflexivity.
  - rewrite !(Reconcile_samplesWhere _ r req σ Herr). cbn [isKind].
    rewrite !app_nil_r.
    destruct (scrapeInstances_spec KPostgres (postgresProviderList r)
                (fst (result (postgresListed r σ))) (result (redisScraped r σ))
                (final (postgresListed r σ)))
      as (HrP & HgP & _).
    fold (postgresScraped r σ) in HrP, HgP. rewrite <- HrP.
    rewrite (Reconcile_stages r req σ Herr). cbn [final fst snd].
    unfold postgresPublished. apply setGaugeMetrics_gauges_congr.
    rewrite HgP. unfold postgresListed. rewrite listResources_gauges.
    unfold redisPublished. apply setGaugeMetrics_gauges_congr.
    unfold redisScraped.
    destruct (scrapeInstances_spec KRedis (redisProviderList r)
                (fst (result (redisListed r σ))) [] (final (redisListed r σ)))
      as (_ & HgR & _).
    rewrite HgR. unfold redisListed. apply listResources_gauges.
Qed.

Lemma Reconcile_events r req σ : Forall (passEv r) (events (Reconcile r req σ)).
Proof.
  destruct (snd (result (redisListed r σ))) as [e|] eqn:Herr.
  - rewrite (Reconcile_redis_list_failed r req σ e Herr). cbn [events snd].
    unfold redisListed. rewrite listResources_events. repeat constructor.
  - rewrite (Reconcile_stages r req σ Herr). cbn [events snd].
    constructor; [exact I|].
    repeat (apply Forall_app; split).
    + unfold redisListed. rewrite listResources_events. repeat constructor.
    + eapply Forall_impl; [apply scrapeInstances_spec|].
      intros ev. apply (scrapeEv_passEv r KRedis).
    + eapply Forall_impl; [apply redisPublished_logs|]. apply isLog_passEv.
    + unfold postgresListed. rewrite listResources_events. repeat constructor.
    + eapply Forall_impl; [apply listErrorLogged_logs|]. apply isLog_passEv.
    + eapply Forall_impl; [apply scrapeInstances_spec|].
      intros ev. apply (scrapeEv_passEv r KPostgres).
    + eapply Forall_impl; [apply postgresPublished_logs|]. apply isLog_passEv.
Qed.

Lemma Reconcile_requeues r req σ :
  snd (result (redisListed r σ)) = None ->
  result (Reconcile r req σ) = (requeue, None).
Proof. intros Herr. rewrite (Reconcile_stages r req σ Herr). reflexivity. Qed.


End Pass.

(** ** The metric types of a strategy *)

Section MetricTypes.

Implicit Types (entries : list (string * MetricType)) (strategy : string).
Implicit Types (metricTypes : list MetricType).

Lemma rangeProviderType_absent entries strategy metricTypes :
  strategy ∉ entries.*1 ->
  rangeProviderType entries strategy metricTypes = metricTypes.
Proof.
  revert metricTypes. induction entries as [|[provider metricType] entries IH];
    intros metricTypes Hno; [reflexivity|].
  cbn [rangeProviderType]. cbn in Hno. apply not_elem_of_cons in Hno as [Hne Hno].
  destruct (String.eqb_spec provider strategy) as [Heq|_]; [congruence|].
  apply IH, Hno.
Qed.

Lemma rangeProviderType_present entries strategy metricType metricTypes :
  NoDup entries.*1 -> (strategy, metricType) ∈ entries ->
  rangeProviderType entries strategy metricTypes = metricTypes ++ [metricType].
Proof.
  revert metricTypes. induction entries as [|[provider mt] entries IH];
    intros metricTypes Hnd Hin.
  { apply elem_of_nil in Hin as []. }
  cbn in Hnd. apply NoDup_cons in Hnd as [Hfresh Hnd].
  cbn [rangeProviderType].
  apply elem_of_cons in Hin as [Hhere|Hlater].
  - injection Hhere as <- <-. rewrite String.eqb_refl.
    apply rangeProviderType_absent, Hfresh.
  - destruct (String.eqb_spec provider strategy) as [->|_].
    + exfalso. apply Hfresh. apply list_elem_of_fmap.
      exists (strategy, metricType). split; [reflexivity | exact Hlater].
    + apply IH; assumption.
Qed.

(** In whatever order the entries of the map are visited, the loop appends
    the metric type of the strategy when the map has one, and nothing
    otherwise. *)
Lemma rangeProviderType_any_order (m : gmap string MetricType) entries strategy
    metricTypes :
  entries ≡ₚ map_to_list m ->
  rangeProviderType entries strategy metricTypes =
  metricTypes ++ option_list (m !! strategy).
Proof.
  intros Hperm.
  assert (Hnd : NoDup entries.*1).
  { rewrite Hperm. apply NoDup_fst_map_to_list. }
  destruct (m !! strategy) as [metricType|] eqn:Hlook; cbn.
  - apply rangeProviderType_present; [exact Hnd|].
    rewrite Hperm. apply elem_of_map_to_list, Hlook.
  - rewrite app_nil_r. apply rangeProviderType_absent.
    rewrite Hperm. intros Hin. apply list_elem_of_fmap in Hin as ([k v] & -> & Hin).
    apply elem_of_map_to_list in Hin. cbn in Hlook. congruence.
Qed.

Lemma metricTypesFor_omap (gaugeMetrics : list CroGaugeMetric) strategy metricTypes :
  metricTypesFor gaugeMetrics strategy metricTypes =
  metricTypes ++ omap (fun gaugeMetric => ProviderType gaugeMetric !! strategy) gaugeMetrics.
Proof.
  revert metricTypes. induction gaugeMetrics as [|gaugeMetric gaugeMetrics IH];
    intros metricTypes.
  { cbn. rewrite app_nil_r. reflexivity. }
  cbn [metricTypesFor omap list_omap]. rewrite IH.
  rewrite (rangeProviderType_any_order (ProviderType gaugeMetric)) by reflexivity.
  rewrite <- app_assoc. f_equal.
  destruct (ProviderType gaugeMetric !! strategy); reflexivity.
Qed.

End MetricTypes.

(** ** Skipped resources and appended lists *)

Section Skipping.
Context `{PackageConstants} {W : Type}.

Implicit Types (σ : @State W) (ps : list (@MetricsProvider W)).
Implicit Types (k : Kind) (cr : CR) (acc : list Sample).

Lemma scrapeProviders_unsupported k ps cr acc σ :
  (forall p, p ∈ ps -> SupportsStrategy p (v1alpha1.Strategy cr) = false) ->
  scrapeProviders k ps cr acc σ = (acc, σ, []).
Proof.
  induction ps as [|p ps IH]; intros Hno; [reflexivity|].
  rewrite scrapeProviders_skip by (apply Hno; by left).
  apply IH. intros q Hq. apply Hno. by right.
Qed.

Lemma scrapeInstances_app k ps items1 items2 acc σ :
  scrapeInstances k ps (items1 ++ items2) acc σ =
  let x := scrapeInstances k ps items1 acc σ in
  let y := scrapeInstances k ps items2 (result x) (final x) in
  (result y, final y, events x ++ events y).
Proof.
  revert acc σ. induction items1 as [|cr items1 IH]; intros acc σ.
  { cbn. destruct (scrapeInstances k ps items2 acc σ) as [[a σ1] e1]. reflexivity. }
  cbn [app]. rewrite !scrapeInstances_cons. cbn zeta. rewrite IH.
  cbn [result final events fst snd app]. rewrite app_assoc. reflexivity.
Qed.


Lemma listResources_result (c : @Client W) k σ :
  result (listResources c k σ) = fst (ClientList c k (world σ)).
Proof. unfold listResources. destruct (ClientList c k (world σ)). reflexivity. Qed.

End Skipping.

(** ** The reconciliation pass *)

Section PassClaims.
Context `{PackageConstants} {W : Type}.

Implicit Types (r : @ReconcileCloudMetrics W) (σ : @State W) (req : reconcile.Request).
Implicit Types (k : Kind) (cr : CR).

(** C1, where the code departs from it: when the listing of the redis
    resources returns an error, [Reconcile] returns that error with the empty
    result, not the requeue directive. *)
Theorem redis_listing_error_returned r req σ e :
  snd (fst (ClientList (client r) KRedis (world σ))) = Some e ->
  result (Reconcile r req σ) = (reconcile.zero, Some e) /\
  result (Reconcile r req σ) <> (requeue, None).
Proof.
  intros Herr. rewrite <- listResources_result in Herr.
  rewrite (Reconcile_redis_list_failed r req σ e Herr). cbn.
  split; [reflexivity | discriminate].
Qed.

(** C2, where the code departs from it: an error of the redis listing ends
    the pass on the spot.  The pass emits its opening line and the listing
    call and nothing else: the error is not logged, the postgres resources
    are not listed and nothing is scraped or published. *)
Theorem redis_listing_error_ends_pass r req σ e :
  snd (fst (ClientList (client r) KRedis (world σ))) = Some e ->
  events (Reconcile r req σ) =
    [ EvInfo "reconciling CloudMetrics";
      EvList KRedis (fst (fst (ClientList (client r) KRedis (world σ)))) (Some e) ] /\
  gauges (final (Reconcile r req σ)) = gauges σ.
Proof.
  intros Herr. pose proof Herr as Herr'. rewrite <- listResources_result in Herr'.
  rewrite (Reconcile_redis_list_failed r req σ e Herr'). cbn [events final fst snd].
  unfold redisListed. rewrite listResources_events, listResources_gauges.
  rewrite listResources_result, Herr. auto.
Qed.

(** The postgres listing is the sibling that goes on: its error is logged
    and the pass ends with the requeue directive. *)
Lemma postgres_listing_error_logged r req σ e :
  snd (fst (ClientList (client r) KRedis (world σ))) = None ->
  snd (result (postgresListed r σ)) = Some e ->
  result (Reconcile r req σ) = (requeue, None) /\
  EvError e ∈ events (Reconcile r req σ).
Proof.
  intros Herr Hperr. rewrite <- listResources_result in Herr.
  rewrite (Reconcile_stages r req σ Herr). cbn [result events fst snd].
  split; [reflexivity|]. rewrite Hperr. cbn [listErrorLogged].
  right. rewrite !elem_of_app. right. right. right. right. left. by left.
Qed.

(** C4: a resource whose strategy no provider of its kind supports is
    passed over.  Its turn of the loop adds one info line to what the loop
    does without it; no scrape call of a pass is for it; no sample and no
    gauge comes from it; and a pass that reached its loops ends with the
    requeue directive. *)
Theorem unsupported_instance_skipped r k cr :
  (forall p, p ∈ providerList r k -> SupportsStrategy p (v1alpha1.Strategy cr) = false) ->
  (forall before after acc σ,
     let x := scrapeInstances k (providerList r k) before acc σ in
     let y := scrapeInstances k (providerList r k) after (result x) (final x) in
     scrapeInstances k (providerList r k) (before ++ after) acc σ =
       (result y, final y, events x ++ events y) /\
     scrapeInstances k (providerList r k) (before ++ cr :: after) acc σ =
       (result y, final y,
        events x
        ++ EvInfo ("beginning to scrape metrics for " +:+ kindName k +:+ " cr: "
                   +:+ v1alpha1.Name cr)
        :: events y)) /\
  (forall req σ metricTypes res,
     EvScrape k cr metricTypes res ∉ events (Reconcile r req σ)) /\
  (forall req σ,
     snd (fst (ClientList (client r) KRedis (world σ))) = None ->
     result (Reconcile r req σ) = (requeue, None)).
Proof.
  intros Hno. split; [|split].
  - intros before after acc σ x y. split; [apply scrapeInstances_app|].
    rewrite scrapeInstances_app. cbn zeta. fold x.
    rewrite scrapeInstances_cons. cbn zeta.
    rewrite (scrapeProviders_unsupported k _ cr _ _ Hno).
    cbn [result final events fst snd app]. reflexivity.
  - intros req σ metricTypes res Hin.
    pose proof (Reconcile_events r req σ) as Hall.
    rewrite Forall_forall in Hall. apply Hall in Hin. cbn in Hin.
    destruct Hin as (_ & p & Hp & Hsup). rewrite (Hno p Hp) in Hsup. discriminate.
  - intros req σ Herr. apply Reconcile_requeues.
    unfold redisListed. rewrite listResources_result. exact Herr.
Qed.

(** C8: every scrape call of a pass asks for the metric types that the
    entries of the catalog of its kind hold for the resource's strategy, in
    the order of the catalog, and goes to a provider supporting the strategy.
    Each of them is an entry's metric type for that very strategy, and when no
    entry holds one for it the list is empty. *)
Theorem scrape_asks_for_strategy_metric_types r req σ k cr metricTypes res :
  EvScrape k cr metricTypes res ∈ events (Reconcile r req σ) ->
  metricTypes =
    omap (fun gaugeMetric => ProviderType gaugeMetric !! v1alpha1.Strategy cr) (catalog k) /\
  (forall metricType, metricType ∈ metricTypes ->
     exists gaugeMetric, gaugeMetric ∈ catalog k /\
       ProviderType gaugeMetric !! v1alpha1.Strategy cr = Some metricType) /\
  ((forall gaugeMetric, gaugeMetric ∈ catalog k ->
      ProviderType gaugeMetric !! v1alpha1.Strategy cr = None) -> metricTypes = []) /\
  exists p, p ∈ providerList r k /\ SupportsStrategy p (v1alpha1.Strategy cr) = true.
Proof.
  intros Hin.
  pose proof (Reconcile_events r req σ) as Hall.
  rewrite Forall_forall in Hall. apply Hall in Hin. cbn in Hin.
  destruct Hin as (-> & Hp). rewrite metricTypesFor_omap. cbn [app].
  split; [reflexivity|]. split; [|split; [|exact Hp]].
  - intros metricType Hmt. apply list_elem_of_omap in Hmt. exact Hmt.
  - intros Hnone. destruct (omap _ (catalog k)) as [|metricType rest] eqn:Heq;
      [reflexivity|].
    assert (Hmt : metricType ∈ omap
              (fun gaugeMetric => ProviderType gaugeMetric !! v1alpha1.Strategy cr)
              (catalog k)) by (rewrite Heq; by left).
    apply list_elem_of_omap in Hmt as (gaugeMetric & Hg & Hsome).
    rewrite (Hnone gaugeMetric Hg) in Hsome. discriminate.
Qed.

End PassClaims.

(** ** The two catalogs in one pass *)

Section Scenario.
Context `{PackageConstants} {W : Type}.

Implicit Types (r : @ReconcileCloudMetrics W) (σ : @State W) (req : reconcile.Request).

Lemma labelValues_freeStorageSample :
  labelValues freeStorageSample = ["c1"; "r1"; "ns1"; "i1"; "p1"; "aws"].
Proof. reflexivity. Qed.

(** C9: the catalog holds the metric "free_storage_avg" with the query
    FreeStorageSpace / Average for the strategy "aws"; the one postgres
    resource is on "aws" with the identity labels c1, r1, ns1, i1, p1; its
    provider returns the one sample of that name with the value 4096.0 and
    these labels and the strategy.  After the pass the series of that
    metric's vector under the six label values reads 4096.0. *)
Theorem free_storage_scenario r req σ p inst :
  PostgresFreeStorageAverage = "free_storage_avg" ->
  AWSDeploymentStrategy = "aws" ->
  StatisticAverage = "Average" ->
  snd (fst (ClientList (client r) KRedis (world σ))) = None ->
  (forall w, fst (fst (ClientList (client r) KPostgres w)) = [inst]) ->
  v1alpha1.Strategy inst = "aws" ->
  v1alpha1.Labels inst = identityLabels ->
  postgresProviderList r = [p] ->
  SupportsStrategy p "aws" = true ->
  (forall w, fst (ScrapeMetrics p inst (metricTypesFor postgresGaugeMetrics "aws" []) w)
             = inr {| providers.Metrics := [freeStorageSample] |}) ->
  exists gaugeMetric,
    gaugeMetric ∈ postgresGaugeMetrics /\
    Name gaugeMetric = "free_storage_avg" /\
    ProviderType gaugeMetric !! "aws" =
      Some {| providers.PromethuesMetricName := "free_storage_avg";
              providers.ProviderMetricName := "FreeStorageSpace";
              providers.Statistic := "Average" |} /\
    gauges (final (Reconcile r req σ))
      !! (prometheus.addr (GaugeVec gaugeMetric), ["c1"; "r1"; "ns1"; "i1"; "p1"; "aws"])
    = Some 4096%float.
Proof.
  intros Hname Haws Havg Herr Hlist Hstrategy _ Hps Hsup Hscrape.
  eexists. split; [left|]. cbn [Name ProviderType GaugeVec NewGaugeVec prometheus.addr].
  split; [exact Hname|]. split.
  { unfold awsOnly. rewrite Haws, Havg, Hname. apply lookup_singleton_eq. }
  rewrite <- listResources_result in Herr.
  rewrite (Reconcile_stages r req σ Herr). cbn [final fst snd].
  unfold postgresPublished. rewrite setGaugeMetrics_lookup.
  assert (Hres : result (postgresScraped r σ) =
                 result (redisScraped r σ) ++ [freeStorageSample]).
  { unfold postgresScraped. rewrite Hps.
    unfold postgresListed at 1. rewrite listResources_result, Hlist.
    rewrite scrapeInstances_cons. cbn zeta. cbn [scrapeInstances ret result final fst].
    set (σ4 := final (postgresListed r σ)).
    specialize (Hscrape (world σ4)).
    destruct (ScrapeMetrics p inst (metricTypesFor postgresGaugeMetrics "aws" [])
                (world σ4)) as [res w] eqn:Hcall.
    cbn in Hscrape. subst res.
    rewrite (scrapeProviders_scraped KPostgres p [] inst _ σ4
               {| providers.Metrics := [freeStorageSample] |} w).
    - reflexivity.
    - rewrite Hstrategy. exact Hsup.
    - rewrite Hstrategy. exact Hcall. }
  rewrite Hres, lastWrite_app. cbn [lastWrite].
  replace (writes postgresGaugeMetrics freeStorageSample _) with true; [reflexivity|].
  symmetry. unfold writes, postgresGaugeMetrics, matches.
  cbn [existsb Name GaugeVec NewGaugeVec prometheus.addr fst snd].
  rewrite Hname. reflexivity.
Qed.

(** C10, as amended: the samples of a pass are gathered in one list, so
    the postgres publishing is handed the redis samples of the pass ahead of
    the postgres ones.  When no redis sample carries the name of a postgres
    catalog entry, as when every redis sample is named as a redis entry and
    the two catalogs share no name, the redis samples set no postgres
    gauge, and the gauges are those that publishing the postgres samples alone
    against the postgres catalog leaves. *)
Theorem carried_over_redis_samples r req σ :
  gauges (final (Reconcile r req σ)) =
    gauges (final (setGaugeMetrics postgresGaugeMetrics
                     (samplesOfKind KRedis (events (Reconcile r req σ))
                      ++ samplesOfKind KPostgres (events (Reconcile r req σ)))
                     (final (setGaugeMetrics redisGaugeMetrics
                               (samplesOfKind KRedis (events (Reconcile r req σ)))
                               σ)))) /\
  ((forall s cm, s ∈ samplesOfKind KRedis (events (Reconcile r req σ)) ->
                 cm ∈ postgresGaugeMetrics -> providers.Name s <> Name cm) ->
   gauges (final (Reconcile r req σ)) =
     gauges (final (setGaugeMetrics postgresGaugeMetrics
                      (samplesOfKind KPostgres (events (Reconcile r req σ)))
                      (final (setGaugeMetrics redisGaugeMetrics
                                (samplesOfKind KRedis (events (Reconcile r req σ)))
                                σ))))) /\
  ((forall cmP cmR, cmP ∈ postgresGaugeMetrics -> cmR ∈ redisGaugeMetrics ->
                    Name cmP <> Name cmR) ->
   (forall s, s ∈ samplesOfKind KRedis (events (Reconcile r req σ)) ->
              exists cmR, cmR ∈ redisGaugeMetrics /\ providers.Name s = Name cmR) ->
   gauges (final (Reconcile r req σ)) =
     gauges (final (setGaugeMetrics postgresGaugeMetrics
                      (samplesOfKind KPostgres (events (Reconcile r req σ)))
                      (final (setGaugeMetrics redisGaugeMetrics
                                (samplesOfKind KRedis (events (Reconcile r req σ)))
                                σ))))).
Proof.
  assert (Hall : gauges (final (Reconcile r req σ)) =
    gauges (final (setGaugeMetrics postgresGaugeMetrics
                     (samplesOfKind KRedis (events (Reconcile r req σ))
                      ++ samplesOfKind KPostgres (events (Reconcile r req σ)))
                     (final (setGaugeMetrics redisGaugeMetrics
                               (samplesOfKind KRedis (events (Reconcile r req σ)))
                               σ))))).
  { rewrite <- Reconcile_samplesOf. apply Reconcile_gauges. }
  assert (Hclean :
    (forall s cm, s ∈ samplesOfKind KRedis (events (Reconcile r req σ)) ->
                  cm ∈ postgresGaugeMetrics -> providers.Name s <> Name cm) ->
    gauges (final (Reconcile r req σ)) =
      gauges (final (setGaugeMetrics postgresGaugeMetrics
                       (samplesOfKind KPostgres (events (Reconcile r req σ)))
                       (final (setGaugeMetrics redisGaugeMetrics
                                 (samplesOfKind KRedis (events (Reconcile r req σ)))
                                 σ))))).
  { intros Hno. rewrite Hall. apply map_eq; intros key.
    rewrite !setGaugeMetrics_lookup, lastWrite_app.
    rewrite (lastWrite_unmatched _ _ _ _ Hno). reflexivity. }
  split; [exact Hall|]. split; [exact Hclean|].
  intros Hdisjoint Hnamed. apply Hclean. intros s cm Hs Hcm Heq.
  destruct (Hnamed s Hs) as (cmR & HcmR & HeqR).
  apply (Hdisjoint cm cmR Hcm HcmR). congruence.
Qed.

End Scenario.

(** ** The claims at the example cluster *)

(** C1 at [redisListingFails]: the pass returns the listing's error. *)
Lemma redis_listing_error_returned_witness :
  result (@Reconcile exampleConstants unit redisListingFails anyRequest noGauges)
  = (reconcile.zero, Some "connection refused").
Proof.
  apply (@redis_listing_error_returned exampleConstants unit
           redisListingFails anyRequest noGauges "connection refused").
  reflexivity.
Defined.

(** C2 at [redisListingFails]: the postgres resource is never reached. *)
Lemma redis_listing_error_ends_pass_witness :
  events (@Reconcile exampleConstants unit redisListingFails anyRequest noGauges)
  = [ EvInfo "reconciling CloudMetrics"; EvList KRedis [] (Some "connection refused") ].
Proof.
  apply (@redis_listing_error_ends_pass exampleConstants unit
           redisListingFails anyRequest noGauges "connection refused").
  reflexivity.
Defined.

(** C4 at [oneScrapeFails]: no provider supports "gcp", and no scrape call
    is made for the postgres resource on it. *)
Lemma unsupported_instance_skipped_witness :
  EvScrape KPostgres (resourceNamed "pg-gcp" "gcp") [] (inl "none")
  ∉ events (@Reconcile exampleConstants unit oneScrapeFails anyRequest noGauges).
Proof.
  apply (@unsupported_instance_skipped exampleConstants unit oneScrapeFails KPostgres
           (resourceNamed "pg-gcp" "gcp")).
  intros p Hp. apply list_elem_of_singleton in Hp. subst p. reflexivity.
Defined.

(** C8 at [oneScrapeFails]: the call for "cache2" asks for the three redis
    metric types of "aws". *)
Lemma scrape_asks_for_strategy_metric_types_witness :
  metricTypesFor (@redisGaugeMetrics exampleConstants) "aws" [] =
  omap (fun gaugeMetric => ProviderType gaugeMetric !! "aws")
       (@catalog exampleConstants KRedis).
Proof.
  apply (@scrape_asks_for_strategy_metric_types exampleConstants unit oneScrapeFails
           anyRequest noGauges KRedis (resourceNamed "cache2" "aws")
           (metricTypesFor (@redisGaugeMetrics exampleConstants) "aws" [])
           (inr {| providers.Metrics := [freeStorageSample] |})).
  apply list_elem_of_In. vm_compute.
  right. right. right. right. right. right. left. reflexivity.
Defined.

(** C9 at [onePostgres]. *)
Lemma free_storage_scenario_witness :
  exists gaugeMetric,
    gaugeMetric ∈ @postgresGaugeMetrics exampleConstants /\
    Name gaugeMetric = "free_storage_avg" /\
    ProviderType gaugeMetric !! "aws" =
      Some {| providers.PromethuesMetricName := "free_storage_avg";
              providers.ProviderMetricName := "FreeStorageSpace";
              providers.Statistic := "Average" |} /\
    gauges (final (@Reconcile exampleConstants unit onePostgres anyRequest noGauges))
      !! (prometheus.addr (GaugeVec gaugeMetric), ["c1"; "r1"; "ns1"; "i1"; "p1"; "aws"])
    = Some 4096%float.
Proof.
  apply (@free_storage_scenario exampleConstants unit onePostgres anyRequest noGauges
           awsProvider (resourceNamed "pg1" "aws")); try reflexivity; intros w; reflexivity.
Defined.

Lemma exampleConstants_disjoint cmP cmR :
  cmP ∈ @postgresGaugeMetrics exampleConstants ->
  cmR ∈ @redisGaugeMetrics exampleConstants ->
  Name cmP <> Name cmR.
Proof.
  intros HP HR. apply list_elem_of_In in HP, HR. cbn in HP, HR.
  destruct HP as [<-|[<-|[<-|[]]]], HR as [<-|[<-|[<-|[]]]]; cbn; discriminate.
Qed.

(** C10 as it stands fails: the two catalogs share no name, yet a redis
    provider may return a sample under a postgres name, and the postgres
    publishing then sets a postgres gauge from it. *)
Lemma carried_over_redis_sample_counterexample :
  (forall cmP cmR, cmP ∈ @postgresGaugeMetrics exampleConstants ->
                   cmR ∈ @redisGaugeMetrics exampleConstants -> Name cmP <> Name cmR) /\
  gauges (final (@Reconcile exampleConstants unit redisUnderPostgresName anyRequest noGauges))
  <> gauges (final (setGaugeMetrics (@postgresGaugeMetrics exampleConstants)
       (samplesOfKind KPostgres
          (events (@Reconcile exampleConstants unit redisUnderPostgresName anyRequest
                     noGauges)))
       (final (setGaugeMetrics (@redisGaugeMetrics exampleConstants)
          (samplesOfKind KRedis
             (events (@Reconcile exampleConstants unit redisUnderPostgresName anyRequest
                        noGauges)))
          noGauges)))).
Proof.
  split; [exact exampleConstants_disjoint|].
  intros Heq.
  apply (f_equal (fun g => g !! (1%positive, ["c1"; "r1"; "ns1"; "i1"; "p1"; "aws"]))) in Heq.
  vm_compute in Heq. discriminate Heq.
Qed.

(** C10 as amended, at [bothKinds]: the redis sample is named as a redis
    entry, and the gauges are those of the postgres samples alone. *)
Lemma carried_over_redis_samples_witness :
  gauges (final (@Reconcile exampleConstants unit bothKinds anyRequest noGauges)) =
  gauges (final (setGaugeMetrics (@postgresGaugeMetrics exampleConstants)
       (samplesOfKind KPostgres
          (events (@Reconcile exampleConstants unit bothKinds anyRequest noGauges)))
       (final (setGaugeMetrics (@redisGaugeMetrics exampleConstants)
          (samplesOfKind KRedis
             (events (@Reconcile exampleConstants unit bothKinds anyRequest noGauges)))
          noGauges)))).
Proof.
  apply (proj2 (proj2 (@carried_over_redis_samples exampleConstants unit bothKinds
                         anyRequest noGauges))).
  - exact exampleConstants_disjoint.
  - intros s Hs. apply list_elem_of_In in Hs. vm_compute in Hs.
    destruct Hs as [<-|[]].
    eexists. split; [right; right; left|]. reflexivity.
Defined.

(** * Further properties *)

(** ** More on the gauge publisher *)

Section PublisherMore.
Context {W : Type}.

Implicit Types (c : list CroGaugeMetric) (s : Sample) (l : list Sample).
Implicit Types (σ : @State W) (key : positive * list string).

Lemma writes_true c s key :
  writes c s key = true <->
  key.2 = labelValues s /\
  exists cm, cm ∈ c /\ Name cm = providers.Name s /\
             prometheus.addr (GaugeVec cm) = key.1.
Proof.
  unfold writes. rewrite andb_true_iff, bool_decide_eq_true, existsb_exists. split.
  - intros [(cm & Hin & Hm) Hl]. split; [congruence|].
    apply andb_true_iff in Hm as [Hm Ha].
    apply String.eqb_eq in Hm. apply bool_decide_eq_true_1 in Ha.
    exists cm. split; [by apply list_elem_of_In | auto].
  - intros [Hl (cm & Hin & Hn & Ha)]. split; [|congruence].
    exists cm. split; [by apply list_elem_of_In|].
    apply andb_true_iff. split.
    + unfold matches. rewrite Hn. apply String.eqb_refl.
    + apply bool_decide_eq_true_2, Ha.
Qed.

Lemma lastWrite_Some c l key prev v :
  lastWrite c l key prev = Some v ->
  prev = Some v \/
  exists s, s ∈ l /\ writes c s key = true /\ v = providers.Value s.
Proof.
  revert prev. induction l as [|s l IH]; intros prev Hl; [by left|].
  cbn [lastWrite] in Hl. apply IH in Hl as [Hprev|(s' & Hin & Hw & Hv)].
  - destruct (writes c s key) eqn:Hw; [|by left].
    right. exists s. split; [by left|]. split; [exact Hw | congruence].
  - right. exists s'. split; [by right | auto].
Qed.

(** X1: whatever was published before it, the last sample of a call
    decides the series it writes: after [setGaugeMetrics] the series of a
    matching entry under the sample's label values reads the sample's value. *)
Theorem last_sample_wins c l s σ cm :
  cm ∈ c -> Name cm = providers.Name s ->
  gauges (final (setGaugeMetrics c (l ++ [s]) σ))
    !! (prometheus.addr (GaugeVec cm), labelValues s) = Some (providers.Value s).
Proof.
  intros Hin Hname. rewrite setGaugeMetrics_lookup, lastWrite_app. cbn [lastWrite].
  replace (writes c s _) with true; [reflexivity|].
  symmetry. apply writes_true. cbn. split; [reflexivity|]. eauto.
Qed.

(** X2: two neighbouring samples may change places when they cannot write
    one series, because their label values differ or because no entry of the
    one's name shares a vector with an entry of the other's: the gauges after
    the call are the same. *)
Theorem samples_of_different_series_commute c l1 l2 s1 s2 σ :
  labelValues s1 <> labelValues s2 \/
  (forall cm1 cm2, cm1 ∈ c -> cm2 ∈ c ->
     Name cm1 = providers.Name s1 -> Name cm2 = providers.Name s2 ->
     prometheus.addr (GaugeVec cm1) <> prometheus.addr (GaugeVec cm2)) ->
  gauges (final (setGaugeMetrics c (l1 ++ s1 :: s2 :: l2) σ)) =
  gauges (final (setGaugeMetrics c (l1 ++ s2 :: s1 :: l2) σ)).
Proof.
  intros Hapart. apply map_eq; intros key.
  rewrite !setGaugeMetrics_lookup, !lastWrite_app. cbn [lastWrite]. f_equal.
  destruct (writes c s1 key) eqn:H1, (writes c s2 key) eqn:H2; try reflexivity.
  exfalso. apply writes_true in H1 as [Hl1 (cm1 & Hin1 & Hn1 & Ha1)].
  apply writes_true in H2 as [Hl2 (cm2 & Hin2 & Hn2 & Ha2)].
  destruct Hapart as [Hne|Hne]; [congruence|].
  apply (Hne cm1 cm2); congruence.
Qed.




Lemma setGaugeMetrics_other_vector c l σ a lvs :
  (forall cm, cm ∈ c -> prometheus.addr (GaugeVec cm) <> a) ->
  gauges (final (setGaugeMetrics c l σ)) !! (a, lvs) = gauges σ !! (a, lvs).
Proof.
  intros Hother. rewrite setGaugeMetrics_lookup.
  destruct (lastWrite c l (a, lvs) (gauges σ !! (a, lvs))) as [v|] eqn:Hlast.
  - apply lastWrite_Some in Hlast as [Hprev|(s & _ & Hw & _)]; [congruence|].
    apply writes_true in Hw as [_ (cm & Hin & _ & Ha)].
    exfalso. exact (Hother cm Hin Ha).
  - rewrite lastWrite_prev in Hlast.
    destruct (lastWrite c l (a, lvs) None); [discriminate | congruence].
Qed.

Lemma setGaugeMetrics_provenance c l σ a lvs v :
  gauges (final (setGaugeMetrics c l σ)) !! (a, lvs) = Some v ->
  gauges σ !! (a, lvs) = Some v \/
  exists s cm, s ∈ l /\ cm ∈ c /\ Name cm = providers.Name s /\
               prometheus.addr (GaugeVec cm) = a /\
               lvs = labelValues s /\ length lvs = 6 /\ v = providers.Value s.
Proof.
  rewrite setGaugeMetrics_lookup. intros Hlast.
  apply lastWrite_Some in Hlast as [Hprev|(s & Hin & Hw & Hv)]; [by left|].
  right. apply writes_true in Hw as [Hl (cm & Hcm & Hn & Ha)]. cbn in Hl, Ha.
  exists s, cm. subst lvs. repeat split; auto.
Qed.

(** X4: [setGaugeMetrics] writes to the vectors of the catalog it is given
    and to no other: a series of any other vector keeps its value, and the
    outside world is not touched. *)
Theorem publish_writes_catalog_vectors_only c l σ a lvs :
  (forall cm, cm ∈ c -> prometheus.addr (GaugeVec cm) <> a) ->
  gauges (final (setGaugeMetrics c l σ)) !! (a, lvs) = gauges σ !! (a, lvs) /\
  world (final (setGaugeMetrics c l σ)) = world σ.
Proof.
  intros Hother. split; [|apply setGaugeMetrics_world].
  apply setGaugeMetrics_other_vector, Hother.
Qed.

(** X5: a value found in a series after [setGaugeMetrics] was there before
    or is the value of one of the samples, whose name is an entry's of that
    vector and whose six label values are the series'. *)
Theorem published_value_provenance c l σ a lvs v :
  gauges (final (setGaugeMetrics c l σ)) !! (a, lvs) = Some v ->
  gauges σ !! (a, lvs) = Some v \/
  exists s cm, s ∈ l /\ cm ∈ c /\ Name cm = providers.Name s /\
               prometheus.addr (GaugeVec cm) = a /\
               lvs = labelValues s /\ length lvs = 6 /\ v = providers.Value s.
Proof. apply setGaugeMetrics_provenance. Qed.

(** X6: [setGaugeMetrics] logs one line for every pair of a sample and an
    entry of its name, the samples in their order and the entries in the
    catalog's, and nothing else. *)
Theorem one_success_line_per_match c l σ :
  events (setGaugeMetrics c l σ) =
  flat_map
    (fun s =>
       map (fun cm => EvInfo ("successfully set metric value for " +:+ Name cm))
           (List.filter (matches s) c))
    l.
Proof.
  assert (Hone : forall s σ',
    events (setGaugeMetric c s σ') =
    map (fun cm => EvInfo ("successfully set metric value for " +:+ Name cm))
        (List.filter (matches s) c)).
  { intros s. induction c as [|cm c IH]; intros σ'; [reflexivity|].
    cbn [setGaugeMetric List.filter]. rewrite bind_events, IH. unfold matches at 2.
    destruct (String.eqb _ _); reflexivity. }
  revert σ. induction l as [|s l IH]; intros σ; [reflexivity|].
  cbn [setGaugeMetrics flat_map]. rewrite bind_events, Hone, IH. reflexivity.
Qed.

End PublisherMore.

(** ** More on the reconciliation pass *)

Section PassMore.
Context `{PackageConstants} {W : Type}.

Implicit Types (r : @ReconcileCloudMetrics W) (σ : @State W) (req : reconcile.Request).
Implicit Types (k : Kind) (cr : CR) (ps : list (@MetricsProvider W)) (evs : list Event).

Lemma scrapeCalls_app evs1 evs2 :
  scrapeCalls (evs1 ++ evs2) = scrapeCalls evs1 ++ scrapeCalls evs2.
Proof. apply flat_map_app. Qed.

Lemma listCalls_app evs1 evs2 :
  listCalls (evs1 ++ evs2) = listCalls evs1 ++ listCalls evs2.
Proof. apply flat_map_app. Qed.

Lemma scrapeCalls_cons ev evs :
  scrapeCalls (ev :: evs) = scrapeCalls [ev] ++ scrapeCalls evs.
Proof. change (ev :: evs) with ([ev] ++ evs). apply flat_map_app. Qed.

Lemma listCalls_cons ev evs :
  listCalls (ev :: evs) = listCalls [ev] ++ listCalls evs.
Proof. change (ev :: evs) with ([ev] ++ evs). apply flat_map_app. Qed.

Lemma scrapeCalls_logs evs : Forall isLog evs -> scrapeCalls evs = [].
Proof.
  induction 1 as [|ev evs Hev _ IH]; [reflexivity|].
  rewrite scrapeCalls_cons, IH. destruct ev; cbn in *; try reflexivity; contradiction.
Qed.

Lemma listCalls_logs evs : Forall isLog evs -> listCalls evs = [].
Proof.
  induction 1 as [|ev evs Hev _ IH]; [reflexivity|].
  rewrite listCalls_cons, IH. destruct ev; cbn in *; try reflexivity; contradiction.
Qed.

Lemma listCalls_scrapeEv k ps evs : Forall (scrapeEv k ps) evs -> listCalls evs = [].
Proof.
  induction 1 as [|ev evs Hev _ IH]; [reflexivity|].
  rewrite listCalls_cons, IH. destruct ev; cbn in *; try reflexivity; contradiction.
Qed.

Lemma scrapeProviders_calls k ps cr acc σ :
  scrapeCalls (events (scrapeProviders k ps cr acc σ)) =
  map (fun _ => (k, cr))
      (List.filter (fun p => SupportsStrategy p (v1alpha1.Strategy cr)) ps).
Proof.
  revert acc σ. induction ps as [|p ps IH]; intros acc σ; [reflexivity|].
  cbn [List.filter].
  destruct (SupportsStrategy p (v1alpha1.Strategy cr)) eqn:Hsup.
  - destruct (ScrapeMetrics p cr (metricTypesFor (catalog k) (v1alpha1.Strategy cr) [])
                (world σ)) as [[e|out] w] eqn:Hcall.
    + rewrite (scrapeProviders_failed _ _ _ _ _ _ _ _ Hsup Hcall).
      cbn [events snd map]. cbn [scrapeCalls flat_map app]. f_equal. apply IH.
    + rewrite (scrapeProviders_scraped _ _ _ _ _ _ _ _ Hsup Hcall).
      cbn [events snd map]. cbn [scrapeCalls flat_map app]. f_equal. apply IH.
  - rewrite scrapeProviders_skip by exact Hsup. apply IH.
Qed.

Lemma scrapeInstances_calls k ps items acc σ :
  scrapeCalls (events (scrapeInstances k ps items acc σ)) = callsDue k ps items.
Proof.
  revert acc σ. induction items as [|cr items IH]; intros acc σ; [reflexivity|].
  rewrite scrapeInstances_cons. cbn [events snd].
  rewrite scrapeCalls_cons, scrapeCalls_app, scrapeProviders_calls, IH. reflexivity.
Qed.

Lemma Reconcile_scrapeCalls r req σ :
  scrapeCalls (events (Reconcile r req σ)) =
    match snd (fst (ClientList (client r) KRedis (world σ))) with
    | Some _ => []
    | None =>
        callsDue KRedis (redisProviderList r) (fst (result (redisListed r σ)))
        ++ callsDue KPostgres (postgresProviderList r) (fst (result (postgresListed r σ)))
    end.
Proof.
  rewrite <- (listResources_result (client r) KRedis σ). fold (redisListed r σ).
  destruct (snd (result (redisListed r σ))) as [e|] eqn:Herr.
  - rewrite (Reconcile_redis_list_failed r req σ e Herr). cbn [events snd].
    unfold redisListed. rewrite listResources_events. reflexivity.
  - rewrite (Reconcile_stages r req σ Herr). cbn [events snd].
    rewrite scrapeCalls_cons, !scrapeCalls_app.
    rewrite (scrapeCalls_logs _ (redisPublished_logs r σ)).
    rewrite (scrapeCalls_logs _ (listErrorLogged_logs _)).
    rewrite (scrapeCalls_logs _ (postgresPublished_logs r σ)).
    unfold redisScraped, postgresScraped. rewrite !scrapeInstances_calls.
    unfold redisListed at 1, postgresListed at 1. rewrite !listResources_events.
    cbn [scrapeCalls flat_map app]. rewrite !app_nil_r. reflexivity.
Qed.

Lemma samplesOfKind_subset k evs m :
  m ∈ samplesOfKind k evs -> m ∈ samplesOf evs.
Proof.
  unfold samplesOfKind, samplesOf, samplesWhere. rewrite !list_elem_of_In, !in_flat_map.
  intros (ev & Hev & Hm). exists ev. split; [exact Hev|].
  destruct ev as [| | |k' cr tys [e|out]]; cbn in *; try contradiction.
  destruct (isKind k k'); [exact Hm | contradiction].
Qed.

(** X9: each kind is published to its own vectors.  A series of a vector
    outside the postgres catalog is after the pass what publishing the redis
    samples against the redis catalog leaves, whatever the postgres samples are
    named; a series of a vector outside the redis catalog is what publishing
    all samples against the postgres catalog leaves; and a series of a vector
    of neither catalog keeps its value. *)
Theorem kinds_publish_to_their_own_vectors r req σ a lvs :
  ((forall cm, cm ∈ postgresGaugeMetrics -> prometheus.addr (GaugeVec cm) <> a) ->
   gauges (final (Reconcile r req σ)) !! (a, lvs) =
   gauges (final (setGaugeMetrics redisGaugeMetrics
                    (samplesOfKind KRedis (events (Reconcile r req σ))) σ)) !! (a, lvs)) /\
  ((forall cm, cm ∈ redisGaugeMetrics -> prometheus.addr (GaugeVec cm) <> a) ->
   gauges (final (Reconcile r req σ)) !! (a, lvs) =
   gauges (final (setGaugeMetrics postgresGaugeMetrics
                    (samplesOf (events (Reconcile r req σ))) σ)) !! (a, lvs)) /\
  ((forall cm, cm ∈ postgresGaugeMetrics ++ redisGaugeMetrics ->
               prometheus.addr (GaugeVec cm) <> a) ->
   gauges (final (Reconcile r req σ)) !! (a, lvs) = gauges σ !! (a, lvs)).
Proof.
  rewrite (Reconcile_gauges r req σ). split; [|split].
  - intros Hp. apply setGaugeMetrics_other_vector, Hp.
  - intros Hr. rewrite !setGaugeMetrics_lookup. f_equal.
    rewrite <- setGaugeMetrics_lookup. apply setGaugeMetrics_other_vector, Hr.
  - intros Hboth. rewrite !setGaugeMetrics_other_vector; [reflexivity| |].
    + intros cm Hcm. apply Hboth, elem_of_app. by right.
    + intros cm Hcm. apply Hboth, elem_of_app. by left.
Qed.

(** X10: a pass invents no value: whatever a series reads after the pass
    was there before, or is the value of a sample that a scrape call of the
    pass returned, published under the sample's six label values to the vector
    of a catalog entry of the sample's name. *)
Theorem pass_value_provenance r req σ a lvs v :
  gauges (final (Reconcile r req σ)) !! (a, lvs) = Some v ->
  gauges σ !! (a, lvs) = Some v \/
  exists s cm,
    s ∈ samplesOf (events (Reconcile r req σ)) /\
    cm ∈ postgresGaugeMetrics ++ redisGaugeMetrics /\
    Name cm = providers.Name s /\ prometheus.addr (GaugeVec cm) = a /\
    lvs = labelValues s /\ length lvs = 6 /\ v = providers.Value s.
Proof.
  rewrite (Reconcile_gauges r req σ). intros Hv.
  apply setGaugeMetrics_provenance in Hv as [Hv|(s & cm & Hs & Hcm & Hrest)].
  - apply setGaugeMetrics_provenance in Hv as [Hv|(s & cm & Hs & Hcm & Hrest)];
      [by left|].
    right. exists s, cm. split; [eapply samplesOfKind_subset, Hs|].
    split; [apply elem_of_app; by right | exact Hrest].
  - right. exists s, cm. split; [exact Hs|].
    split; [apply elem_of_app; by left | exact Hrest].
Qed.

Lemma samplesWhere_none f evs :
  (forall k cr metricTypes out,
     EvScrape k cr metricTypes (inr out) ∈ evs -> providers.Metrics out = []) ->
  samplesWhere f evs = [].
Proof.
  induction evs as [|ev evs IH]; intros Hnone; [reflexivity|].
  change (samplesWhere f (ev :: evs)) with (scrapedBy f ev ++ samplesWhere f evs).
  rewrite IH by (intros k cr tys out Hin; eapply Hnone; right; exact Hin).
  rewrite app_nil_r.
  destruct ev as [| | |k cr tys [e|out]]; cbn; try reflexivity.
  rewrite (Hnone k cr tys out) by (by left). destruct (f k); reflexivity.
Qed.

(** X11: a pass none of whose scrape calls returned a sample, be it that
    they failed, that nothing was listed or that no provider supported a
    strategy, leaves every gauge as it was: the values of earlier passes
    stay. *)
Theorem pass_without_samples_keeps_gauges r req σ :
  (forall k cr metricTypes out,
     EvScrape k cr metricTypes (inr out) ∈ events (Reconcile r req σ) ->
     providers.Metrics out = []) ->
  gauges (final (Reconcile r req σ)) = gauges σ.
Proof.
  intros Hnone. rewrite (Reconcile_gauges r req σ).
  unfold samplesOf, samplesOfKind. rewrite !(samplesWhere_none _ _ Hnone). reflexivity.
Qed.

End PassMore.

(** ** The catalogs and the names of the samples *)

Section CatalogNames.
Context `{PackageConstants} {W : Type}.

Implicit Types (r : @ReconcileCloudMetrics W) (σ : @State W) (req : reconcile.Request).
Implicit Types (k : Kind) (cr : CR) (evs : list Event).

Lemma catalog_aws_names k :
  map providers.PromethuesMetricName (metricTypesFor (catalog k) AWSDeploymentStrategy [])
  = map Name (catalog k).
Proof.
  rewrite metricTypesFor_omap. cbn [app].
  destruct k; cbn [catalog redisGaugeMetrics postgresGaugeMetrics omap list_omap
                     ProviderType Name]; unfold awsOnly;
    rewrite !lookup_singleton_eq; reflexivity.
Qed.

Lemma catalog_other_strategy k strategy :
  strategy <> AWSDeploymentStrategy -> metricTypesFor (catalog k) strategy [] = [].
Proof.
  intros Hne. rewrite metricTypesFor_omap. cbn [app].
  destruct k; cbn [catalog redisGaugeMetrics postgresGaugeMetrics omap list_omap
                     ProviderType Name]; unfold awsOnly;
    rewrite !lookup_singleton_ne by congruence; reflexivity.
Qed.

(** X12: in both catalogs every entry holds a metric type for the AWS
    strategy alone, and that metric type carries the entry's own name: asked
    for the AWS strategy the catalog yields one metric type per entry, under
    the entries' names and in their order, and asked for any other strategy it
    yields none.  Hence a sample that a provider names as one of the metric
    types it was asked for is matched by an entry of its kind's catalog when
    published. *)
Theorem samples_named_as_asked_are_matched r req σ :
  (forall k,
     map providers.PromethuesMetricName
         (metricTypesFor (catalog k) AWSDeploymentStrategy [])
     = map Name (catalog k)) /\
  (forall k strategy,
     strategy <> AWSDeploymentStrategy -> metricTypesFor (catalog k) strategy [] = []) /\
  (forall k cr metricTypes out m,
     EvScrape k cr metricTypes (inr out) ∈ events (Reconcile r req σ) ->
     m ∈ providers.Metrics out ->
     In (providers.Name m) (map providers.PromethuesMetricName metricTypes) ->
     exists cm, cm ∈ catalog k /\ Name cm = providers.Name m).
Proof.
  split; [exact catalog_aws_names|]. split; [exact catalog_other_strategy|].
  intros k cr metricTypes out m Hev _ Hnamed.
  pose proof (Reconcile_events r req σ) as Hall.
  rewrite Forall_forall in Hall. apply Hall in Hev. cbn in Hev.
  destruct Hev as (-> & _).
  destruct (decide (v1alpha1.Strategy cr = AWSDeploymentStrategy)) as [Heq|Hne].
  - rewrite Heq, catalog_aws_names in Hnamed.
    apply in_map_iff in Hnamed as (cm & Hn & Hin).
    exists cm. split; [by apply list_elem_of_In | exact Hn].
  - rewrite (catalog_other_strategy k _ Hne) in Hnamed. destruct Hnamed.
Qed.


Lemma callsDue_kind k (ps : list (@MetricsProvider W)) items k' cr :
  (k', cr) ∈ callsDue k ps items -> k' = k.
Proof.
  intros Hin. apply list_elem_of_In in Hin. unfold callsDue in Hin.
  apply in_flat_map in Hin as (cr' & _ & Hin).
  apply in_map_iff in Hin as (p & Heq & _). congruence.
Qed.



End CatalogNames.

(** ** The start of the controller *)

Section StartupProperties.
Context `{PackageConstants} {W : Type}.
Context {Registry MW Controller : Type}.
Variable MustRegister : Registry -> prometheus.GaugeVec -> option Registry.
Variable NewAWSPostgresMetricsProvider : @Client W -> @MetricsProvider W.
Variable NewAWSRedisMetricsProvider : @Client W -> @MetricsProvider W.
Variable ControllerNew :
  string -> @Manager W -> @ReconcileCloudMetrics W -> MW -> (error + Controller) * MW.
Variable Watch : Controller -> MW -> option error * MW.

Lemma registerMetrics_app metrics1 metrics2 (reg : Registry) :
  registerMetrics MustRegister (metrics1 ++ metrics2) reg =
  let '(o, reg1, evs1) := registerMetrics MustRegister metrics1 reg in
  match o with
  | Panicked => (Panicked, reg1, evs1)
  | Returned _ =>
      let '(o2, reg2, evs2) := registerMetrics MustRegister metrics2 reg1 in
      (o2, reg2, evs1 ++ evs2)
  end.
Proof.
  revert reg. induction metrics1 as [|metric metrics1 IH]; intros reg.
  { cbn. destruct (registerMetrics MustRegister metrics2 reg) as [[o reg2] evs2].
    reflexivity. }
  cbn [app registerMetrics].
  destruct (MustRegister reg (GaugeVec metric)) as [reg'|]; [|reflexivity].
  rewrite IH. destruct (registerMetrics MustRegister metrics1 reg') as [[o reg1] evs1].
  destruct o; [|reflexivity].
  destruct (registerMetrics MustRegister metrics2 reg1) as [[o2 reg2] evs2]. reflexivity.
Qed.

Lemma registerMetrics_spec metrics (reg : Registry) :
  let '(o, reg', evs) := registerMetrics MustRegister metrics reg in
  match o with
  | Returned _ =>
      registerAll MustRegister (map GaugeVec metrics) reg = Some reg' /\
      evs = map registeringLine metrics
  | Panicked =>
      exists done metric rest,
        metrics = done ++ metric :: rest /\
        registerAll MustRegister (map GaugeVec done) reg = Some reg' /\
        MustRegister reg' (GaugeVec metric) = None /\
        evs = map registeringLine (done ++ [metric])
  end.
Proof.
  revert reg. induction metrics as [|metric metrics IH]; intros reg.
  { cbn. auto. }
  cbn [registerMetrics map registerAll].
  destruct (MustRegister reg (GaugeVec metric)) as [reg1|] eqn:Hreg.
  - specialize (IH reg1).
    destruct (registerMetrics MustRegister metrics reg1) as [[o reg2] evs].
    destruct o as [u|].
    + destruct IH as [Hall Hevs]. split; [exact Hall|]. rewrite Hevs. reflexivity.
    + destruct IH as (done & m & rest & -> & Hall & Hno & ->).
      exists (metric :: done), m, rest. cbn [app map registerAll]. rewrite Hreg. auto.
  - exists [], metric, metrics. cbn. auto.
Qed.

(** X14: [registerGaugeVectorMetrics] runs its two loops as one loop over
    the postgres catalog followed by the redis catalog.  A loop that returns
    has logged one line for every metric and registered every vector, in the
    catalog's order; a loop that panics has done so for the metrics before the
    refused one, has logged the line of the refused one, and has neither
    logged nor registered any later metric. *)
Theorem registration_in_catalog_order (reg : Registry) :
  registerGaugeVectorMetrics MustRegister reg =
    registerMetrics MustRegister (postgresGaugeMetrics ++ redisGaugeMetrics) reg /\
  (forall metrics reg0,
     let '(o, reg', evs) := registerMetrics MustRegister metrics reg0 in
     match o with
     | Returned _ =>
         registerAll MustRegister (map GaugeVec metrics) reg0 = Some reg' /\
         evs = map registeringLine metrics
     | Panicked =>
         exists done metric rest,
           metrics = done ++ metric :: rest /\
           registerAll MustRegister (map GaugeVec done) reg0 = Some reg' /\
           MustRegister reg' (GaugeVec metric) = None /\
           evs = map registeringLine (done ++ [metric])
     end).
Proof.
  split; [|exact registerMetrics_spec].
  unfold registerGaugeVectorMetrics. rewrite registerMetrics_app. reflexivity.
Qed.

Lemma callsDue_one k (p : @MetricsProvider W) items :
  callsDue k [p] items =
  map (pair k) (List.filter (fun cr => SupportsStrategy p (v1alpha1.Strategy cr)) items).
Proof.
  induction items as [|cr items IH]; [reflexivity|].
  change (callsDue k [p] (cr :: items))
    with (map (fun _ : @MetricsProvider W => (k, cr))
              (List.filter (fun q => SupportsStrategy q (v1alpha1.Strategy cr)) [p])
          ++ callsDue k [p] items).
  rewrite IH. cbn [List.filter].
  destruct (SupportsStrategy p (v1alpha1.Strategy cr)); reflexivity.
Qed.

Lemma newReconciler_returned mgr (reg : Registry) r reg' evs :
  newReconciler MustRegister NewAWSPostgresMetricsProvider NewAWSRedisMetricsProvider
    mgr reg = (Returned r, reg', evs) ->
  r = {| client := GetClient mgr;
         postgresProviderList := [NewAWSPostgresMetricsProvider (GetClient mgr)];
         redisProviderList := [NewAWSRedisMetricsProvider (GetClient mgr)] |} /\
  registerGaugeVectorMetrics MustRegister reg = (Returned tt, reg', evs).
Proof.
  unfold newReconciler.
  destruct (registerGaugeVectorMetrics MustRegister reg) as [[o reg1] evs1].
  destruct o as [[]|]; intros Heq; [|discriminate Heq].
  injection Heq as <- <- <-. auto.
Qed.

(** X15: a reconciler that [newReconciler] returns lists through the
    manager's client and holds one provider for each kind.  In a pass of it
    whose redis listing returns no error every listed resource whose strategy
    its kind's provider supports is scraped once and no other resource is
    scraped, the redis resources first. *)
Theorem new_reconciler_scrapes_each_resource_at_most_once mgr (reg : Registry) r reg' evs
    req σ :
  newReconciler MustRegister NewAWSPostgresMetricsProvider NewAWSRedisMetricsProvider
    mgr reg = (Returned r, reg', evs) ->
  snd (fst (ClientList (GetClient mgr) KRedis (world σ))) = None ->
  client r = GetClient mgr /\
  scrapeCalls (events (Reconcile r req σ)) =
    map (pair KRedis)
        (List.filter
           (fun cr => SupportsStrategy (NewAWSRedisMetricsProvider (GetClient mgr))
                        (v1alpha1.Strategy cr))
           (fst (result (redisListed r σ))))
    ++ map (pair KPostgres)
           (List.filter
              (fun cr => SupportsStrategy (NewAWSPostgresMetricsProvider (GetClient mgr))
                           (v1alpha1.Strategy cr))
              (fst (result (postgresListed r σ)))).
Proof.
  intros Hnew Herr. apply newReconciler_returned in Hnew as [Hr _].
  split; [rewrite Hr; reflexivity|].
  rewrite Reconcile_scrapeCalls.
  replace (snd (fst (ClientList (client r) KRedis (world σ)))) with (@None error)
    by (rewrite Hr; cbn [client]; symmetry; exact Herr).
  rewrite Hr at 1 3. cbn [redisProviderList postgresProviderList].
  rewrite !callsDue_one. reflexivity.
Qed.

Lemma registerAll_keeps_refusing vecs (reg reg' : Registry) vec :
  (forall reg0 vec0 vec1 reg1,
     MustRegister reg0 vec0 = None -> MustRegister reg0 vec1 = Some reg1 ->
     MustRegister reg1 vec0 = None) ->
  MustRegister reg vec = None ->
  registerAll MustRegister vecs reg = Some reg' ->
  MustRegister reg' vec = None.
Proof.
  intros Hkeep. revert reg. induction vecs as [|vec1 vecs IH]; intros reg Hno Hall.
  { cbn in Hall. congruence. }
  cbn [registerAll] in Hall.
  destruct (MustRegister reg vec1) as [reg1|] eqn:Hreg; [|discriminate Hall].
  apply (IH reg1); [|exact Hall]. eapply Hkeep; eauto.
Qed.

Lemma registerAll_refuses_registered vecs (reg reg' : Registry) vec :
  (forall reg0 vec0 reg1, MustRegister reg0 vec0 = Some reg1 -> MustRegister reg1 vec0 = None) ->
  (forall reg0 vec0 vec1 reg1,
     MustRegister reg0 vec0 = None -> MustRegister reg0 vec1 = Some reg1 ->
     MustRegister reg1 vec0 = None) ->
  registerAll MustRegister vecs reg = Some reg' ->
  In vec vecs ->
  MustRegister reg' vec = None.
Proof.
  intros Hdup Hkeep. revert reg. induction vecs as [|vec1 vecs IH]; intros reg Hall Hin.
  { destruct Hin. }
  cbn [registerAll] in Hall.
  destruct (MustRegister reg vec1) as [reg1|] eqn:Hreg; [|discriminate Hall].
  destruct Hin as [->|Hin].
  - eapply registerAll_keeps_refusing; [exact Hkeep| |exact Hall]. eapply Hdup, Hreg.
  - eapply IH; eauto.
Qed.

Lemma Add_returned mgr (reg : Registry) (mw : MW) err reg' mw' evs :
  Add MustRegister NewAWSPostgresMetricsProvider NewAWSRedisMetricsProvider
    ControllerNew Watch mgr reg mw = (Returned err, reg', mw', evs) ->
  registerAll MustRegister (map GaugeVec (postgresGaugeMetrics ++ redisGaugeMetrics)) reg
  = Some reg'.
Proof.
  unfold Add, newReconciler.
  pose proof (registerMetrics_spec (postgresGaugeMetrics ++ redisGaugeMetrics) reg) as Hspec.
  replace (registerMetrics MustRegister (postgresGaugeMetrics ++ redisGaugeMetrics) reg)
    with (registerGaugeVectorMetrics MustRegister reg) in Hspec
    by (unfold registerGaugeVectorMetrics; rewrite registerMetrics_app; reflexivity).
  destruct (registerGaugeVectorMetrics MustRegister reg) as [[o reg1] evs1].
  destruct o as [[]|]; [|discriminate].
  destruct (add ControllerNew Watch mgr _ mw) as [[err1 mw1] evs2].
  intros Heq. injection Heq as _ <- _ _. apply Hspec.
Qed.

(** X16: [Add] builds the reconciler, and with it registers the six
    vectors, before it creates the controller.  When the registration panics
    [Add] panics with it and the manager is left alone: no controller is
    created and nothing is watched.  When [Add] returns, with an error of the
    controller's creation or of the watch or with none, the six vectors are
    registered; over a registry that refuses a vector it holds, any further
    [Add] then panics at the first vector, having logged that vector's line
    only. *)
Theorem Add_registers_before_creating mgr (reg : Registry) (mw : MW) :
  (forall reg1 evs,
     registerGaugeVectorMetrics MustRegister reg = (Panicked, reg1, evs) ->
     Add MustRegister NewAWSPostgresMetricsProvider NewAWSRedisMetricsProvider
       ControllerNew Watch mgr reg mw = (Panicked, reg1, mw, evs)) /\
  (forall err reg1 mw1 evs,
     Add MustRegister NewAWSPostgresMetricsProvider NewAWSRedisMetricsProvider
       ControllerNew Watch mgr reg mw = (Returned err, reg1, mw1, evs) ->
     registerAll MustRegister
       (map GaugeVec (postgresGaugeMetrics ++ redisGaugeMetrics)) reg = Some reg1) /\
  ((forall reg0 vec0 reg1,
      MustRegister reg0 vec0 = Some reg1 -> MustRegister reg1 vec0 = None) ->
   (forall reg0 vec0 vec1 reg1,
      MustRegister reg0 vec0 = None -> MustRegister reg0 vec1 = Some reg1 ->
      MustRegister reg1 vec0 = None) ->
   forall err reg1 mw1 evs,
     Add MustRegister NewAWSPostgresMetricsProvider NewAWSRedisMetricsProvider
       ControllerNew Watch mgr reg mw = (Returned err, reg1, mw1, evs) ->
     forall mgr' mw',
       Add MustRegister NewAWSPostgresMetricsProvider NewAWSRedisMetricsProvider
         ControllerNew Watch mgr' reg1 mw'
       = (Panicked, reg1, mw',
          [SInfo ("registering metric: " +:+ PostgresFreeStorageAverage +:+ " ")])).
Proof.
  split; [|split].
  - intros reg1 evs Hpanic. unfold Add, newReconciler. rewrite Hpanic. reflexivity.
  - intros err reg1 mw1 evs. apply Add_returned.
  - intros Hdup Hkeep err reg1 mw1 evs Hadd mgr' mw'.
    apply Add_returned in Hadd.
    assert (Hno : MustRegister reg1 (NewGaugeVec 1
              {| prometheus.Name := PostgresFreeStorageAverage;
                 prometheus.Help := "The amount of available storage space. Units: Bytes" |}
              labels) = None).
    { eapply registerAll_refuses_registered; [exact Hdup | exact Hkeep | exact Hadd|].
      left. reflexivity. }
    unfold Add, newReconciler, registerGaugeVectorMetrics, postgresGaugeMetrics.
    cbn [registerMetrics GaugeVec Name]. rewrite Hno. reflexivity.
Qed.

End StartupProperties.

(** ** The earlier controller *)

Section Earlier.
Context {W : Type}.

Implicit Types (r : @part_000.ReconcileCloudMetrics W) (σ : @State W).
Implicit Types (req : reconcile.Request).

Lemma reportFound_run k items σ :
  part_000.reportFound k items σ = (tt, σ, foundLines k items).
Proof.
  assert (Hloop : forall items' σ',
    part_000.logFound (W:=W) k items' σ' =
    (tt, σ',
     map (fun cr => EvInfo ("Found " +:+ kindName k +:+ " cr: " +:+ v1alpha1.Name cr))
         items')).
  { induction items' as [|cr items' IH]; intros σ'; [reflexivity|].
    cbn [part_000.logFound map]. unfold bind, logInfo. rewrite IH. reflexivity. }
  unfold part_000.reportFound. destruct items as [|cr items]; [reflexivity|].
  cbn [length Nat.ltb Nat.leb foundLines]. apply Hloop.
Qed.

(** X18: the earlier [Reconcile] returns the error of the first listing
    that fails, with the empty result: after an error of the redis listing
    the postgres resources are not listed, and an error of the postgres
    listing, too, ends the pass without a requeue directive. *)
Theorem earlier_Reconcile_returns_listing_errors r req σ :
  (forall items e w,
     ClientList (part_000.client r) KRedis (world σ) = ((items, Some e), w) ->
     part_000.Reconcile r req σ =
     ((reconcile.zero, Some e), {| world := w; gauges := gauges σ |},
      [EvInfo "Reconciling CloudMetrics"; EvList KRedis items (Some e)])) /\
  (forall ritems w pitems e w',
     ClientList (part_000.client r) KRedis (world σ) = ((ritems, None), w) ->
     ClientList (part_000.client r) KPostgres w = ((pitems, Some e), w') ->
     part_000.Reconcile r req σ =
     ((reconcile.zero, Some e), {| world := w'; gauges := gauges σ |},
      EvInfo "Reconciling CloudMetrics" :: EvList KRedis ritems None
      :: foundLines KRedis ritems ++ [EvList KPostgres pitems (Some e)])).
Proof.
  split.
  - intros items e w Hredis. unfold part_000.Reconcile, bind, logInfo, listResources.
    rewrite Hredis. reflexivity.
  - intros ritems w pitems e w' Hredis Hpostgres.
    unfold part_000.Reconcile, bind, logInfo, listResources.
    rewrite Hredis. cbn [fst snd]. rewrite reportFound_run. cbn [world].
    rewrite Hpostgres. cbn [fst snd ret app]. rewrite ?app_nil_r. reflexivity.
Qed.

(** X19: when both listings return without error the earlier [Reconcile]
    logs a line for every resource found, or one line for a kind of which
    there is none, changes no gauge, and returns the directive to requeue after
    600 seconds, which is ten minutes. *)
Theorem earlier_Reconcile_requeues_after_600s r req σ ritems w pitems w' :
  ClientList (part_000.client r) KRedis (world σ) = ((ritems, None), w) ->
  ClientList (part_000.client r) KPostgres w = ((pitems, None), w') ->
  part_000.Reconcile r req σ =
  (({| reconcile.Requeue := false; reconcile.RequeueAfter := 600000000000 |}, None),
   {| world := w'; gauges := gauges σ |},
   EvInfo "Reconciling CloudMetrics" :: EvList KRedis ritems None
   :: foundLines KRedis ritems
   ++ EvList KPostgres pitems None :: foundLines KPostgres pitems) /\
  (600000000000 = 10 * (60 * time.Second))%Z.
Proof.
  intros Hredis Hpostgres. split; [|reflexivity].
  unfold part_000.Reconcile, bind, logInfo, listResources.
  rewrite Hredis. cbn [fst snd]. rewrite reportFound_run. cbn [world].
  rewrite Hpostgres. cbn [fst snd]. rewrite reportFound_run.
  cbn [fst snd ret app]. rewrite ?app_nil_r. reflexivity.
Qed.

End Earlier.

(** ** The further properties at the example clusters *)

(** X1 at [twoOfOneName]. *)
Lemma last_sample_wins_witness :
  gauges (final (setGaugeMetrics twoOfOneName ([sampleMOtherCluster] ++ [sampleM]) noGauges))
    !! (2%positive, labelValues sampleM) = Some 1%float.
Proof.
  apply (last_sample_wins twoOfOneName [sampleMOtherCluster] sampleM noGauges
           {| Name := "m";
              GaugeVec := NewGaugeVec 2 {| prometheus.Name := "m2"; prometheus.Help := "" |} labels;
              ProviderType := ∅ |}).
  - apply list_elem_of_In. right. left. reflexivity.
  - reflexivity.
Defined.

(** X2 at two samples for different clusters. *)
Lemma samples_of_different_series_commute_witness :
  gauges (final (setGaugeMetrics twoOfOneName ([] ++ sampleM :: sampleMOtherCluster :: [])
                   noGauges)) =
  gauges (final (setGaugeMetrics twoOfOneName ([] ++ sampleMOtherCluster :: sampleM :: [])
                   noGauges)).
Proof.
  apply (samples_of_different_series_commute twoOfOneName [] [] sampleM
           sampleMOtherCluster noGauges).
  left. intros Heq. vm_compute in Heq. discriminate Heq.
Defined.


(** X4 at a vector outside [twoOfOneName]. *)
Lemma publish_writes_catalog_vectors_only_witness :
  gauges (final (setGaugeMetrics twoOfOneName [sampleM] noGauges))
    !! (3%positive, labelValues sampleM)
  = gauges noGauges !! (3%positive, labelValues sampleM).
Proof.
  apply (publish_writes_catalog_vectors_only twoOfOneName [sampleM] noGauges 3%positive
           (labelValues sampleM)).
  intros cm Hcm. apply list_elem_of_In in Hcm. cbn in Hcm.
  destruct Hcm as [<-|[<-|[]]]; cbn; discriminate.
Defined.

(** X5 at the second vector of [twoOfOneName]. *)
Lemma published_value_provenance_witness :
  gauges noGauges !! (2%positive, labelValues sampleM) = Some 1%float \/
  exists s cm, s ∈ [sampleM] /\ cm ∈ twoOfOneName /\ Name cm = providers.Name s /\
               prometheus.addr (GaugeVec cm) = 2%positive /\
               labelValues sampleM = labelValues s /\
               length (labelValues sampleM) = 6 /\ 1%float = providers.Value s.
Proof.
  apply (published_value_provenance twoOfOneName [sampleM] noGauges 2%positive
           (labelValues sampleM) 1%float).
  reflexivity.
Defined.

(** X9 at [bothKinds]: the redis vector at address 4. *)
Lemma kinds_publish_to_their_own_vectors_witness :
  gauges (final (@Reconcile exampleConstants unit bothKinds anyRequest noGauges))
    !! (4%positive, labelValues redisCPUSample) =
  gauges (final (setGaugeMetrics (@redisGaugeMetrics exampleConstants)
                   (samplesOfKind KRedis
                      (events (@Reconcile exampleConstants unit bothKinds anyRequest
                                 noGauges)))
                   noGauges)) !! (4%positive, labelValues redisCPUSample).
Proof.
  apply (proj1 (@kinds_publish_to_their_own_vectors exampleConstants unit bothKinds
                  anyRequest noGauges 4%positive (labelValues redisCPUSample))).
  intros cm Hcm. apply list_elem_of_In in Hcm. cbn in Hcm.
  destruct Hcm as [<-|[<-|[<-|[]]]]; cbn; discriminate.
Defined.

(** X10 at [onePostgres]: the value 4096.0 comes from the scraped sample. *)
Lemma pass_value_provenance_witness :
  gauges noGauges !! (1%positive, ["c1"; "r1"; "ns1"; "i1"; "p1"; "aws"]) = Some 4096%float \/
  exists s cm,
    s ∈ samplesOf (events (@Reconcile exampleConstants unit onePostgres anyRequest noGauges)) /\
    cm ∈ @postgresGaugeMetrics exampleConstants ++ @redisGaugeMetrics exampleConstants /\
    Name cm = providers.Name s /\ prometheus.addr (GaugeVec cm) = 1%positive /\
    ["c1"; "r1"; "ns1"; "i1"; "p1"; "aws"] = labelValues s /\
    length ["c1"; "r1"; "ns1"; "i1"; "p1"; "aws"] = 6 /\ 4096%float = providers.Value s.
Proof.
  apply (@pass_value_provenance exampleConstants unit onePostgres anyRequest noGauges
           1%positive ["c1"; "r1"; "ns1"; "i1"; "p1"; "aws"] 4096%float).
  vm_compute. reflexivity.
Defined.

(** X11 at [everyScrapeFails]. *)
Lemma pass_without_samples_keeps_gauges_witness :
  gauges (final (@Reconcile exampleConstants unit everyScrapeFails anyRequest noGauges))
  = gauges noGauges.
Proof.
  apply (@pass_without_samples_keeps_gauges exampleConstants unit everyScrapeFails
           anyRequest noGauges).
  intros k cr metricTypes out Hin. apply list_elem_of_In in Hin. vm_compute in Hin.
  repeat (destruct Hin as [Hin|Hin]; [discriminate Hin|]). destruct Hin.
Defined.

(** X12 at [bothKinds]: the redis sample is named as a metric type asked
    for, and an entry of the redis catalog matches it. *)
Lemma samples_named_as_asked_are_matched_witness :
  exists cm, cm ∈ @catalog exampleConstants KRedis /\ Name cm = providers.Name redisCPUSample.
Proof.
  apply (proj2 (proj2 (@samples_named_as_asked_are_matched exampleConstants unit bothKinds
                         anyRequest noGauges))
           KRedis (resourceNamed "cache1" "aws")
           (metricTypesFor (@redisGaugeMetrics exampleConstants) "aws" [])
           {| providers.Metrics := [redisCPUSample] |} redisCPUSample).
  - apply list_elem_of_In. vm_compute. right. right. right. left. reflexivity.
  - by left.
  - vm_compute. right. right. left. reflexivity.
Defined.


(** X15 at [exampleManager]: of the two redis resources the one on "gcp"
    is not scraped. *)
Lemma new_reconciler_scrapes_each_resource_at_most_once_witness :
  scrapeCalls
    (events (@Reconcile exampleConstants unit
               {| client := GetClient exampleManager;
                  postgresProviderList := [awsProvider];
                  redisProviderList := [redisProvider] |}
               anyRequest noGauges))
  = [ (KRedis, resourceNamed "cache1" "aws"); (KPostgres, resourceNamed "pg1" "aws") ].
Proof.
  eapply (proj2 (@new_reconciler_scrapes_each_resource_at_most_once exampleConstants unit
                   (list string) registerByName (fun _ => awsProvider)
                   (fun _ => redisProvider) exampleManager [] _ _ _ anyRequest noGauges
                   eq_refl eq_refl)).
Defined.

Lemma registerByName_refuses_held reg0 vec0 reg1 :
  registerByName reg0 vec0 = Some reg1 -> registerByName reg1 vec0 = None.
Proof.
  unfold registerByName.
  destruct (existsb _ reg0); [discriminate|]. intros Heq. injection Heq as <-.
  cbn [existsb]. rewrite String.eqb_refl. reflexivity.
Qed.

Lemma registerByName_keeps_refusing reg0 vec0 vec1 reg1 :
  registerByName reg0 vec0 = None -> registerByName reg0 vec1 = Some reg1 ->
  registerByName reg1 vec0 = None.
Proof.
  unfold registerByName. intros Hheld Hnew.
  destruct (existsb (String.eqb (prometheus.Name (prometheus.opts vec0))) reg0) eqn:Hin0;
    [|discriminate Hheld].
  destruct (existsb (String.eqb (prometheus.Name (prometheus.opts vec1))) reg0);
    [discriminate Hnew|].
  injection Hnew as <-. cbn [existsb]. rewrite Hin0, orb_true_r. reflexivity.
Qed.

(** X16 at [exampleManager]: after an [Add] that returned, a second [Add]
    panics at the first vector. *)
Lemma Add_registers_before_creating_witness :
  @Add exampleConstants unit (list string) unit unit registerByName
    (fun _ => awsProvider) (fun _ => redisProvider) controllerCreated watchSetUp
    exampleManager
    [ "redis_cpu_utilization_avg"; "redis_freeable_memory_avg";
      "redis_memory_usage_percentage_avg"; "postgres_freeable_memory_avg";
      "postgres_cpu_utilization_avg"; "free_storage_avg" ]
    tt
  = (Panicked,
     [ "redis_cpu_utilization_avg"; "redis_freeable_memory_avg";
       "redis_memory_usage_percentage_avg"; "postgres_freeable_memory_avg";
       "postgres_cpu_utilization_avg"; "free_storage_avg" ],
     tt, [SInfo "registering metric: free_storage_avg "]).
Proof.
  eapply (proj2 (proj2 (@Add_registers_before_creating exampleConstants unit
                          (list string) unit unit registerByName (fun _ => awsProvider)
                          (fun _ => redisProvider) controllerCreated watchSetUp
                          exampleManager [] tt))
            registerByName_refuses_held registerByName_keeps_refusing).
  reflexivity.
Defined.

(** X18 at [earlierPostgresFails]. *)
Lemma earlier_Reconcile_returns_listing_errors_witness :
  part_000.Reconcile earlierPostgresFails anyRequest noGauges =
  ((reconcile.zero, Some "connection refused"), noGauges,
   EvInfo "Reconciling CloudMetrics"
   :: EvList KRedis [resourceNamed "cache1" "aws"] None
   :: foundLines KRedis [resourceNamed "cache1" "aws"]
   ++ [EvList KPostgres [] (Some "connection refused")]).
Proof.
  apply (proj2 (earlier_Reconcile_returns_listing_errors earlierPostgresFails anyRequest
                  noGauges)
           [resourceNamed "cache1" "aws"] tt [] "connection refused" tt);
    reflexivity.
Defined.

(** X19 at [earlierOverTwoRedis]. *)
Lemma earlier_Reconcile_requeues_after_600s_witness :
  part_000.Reconcile earlierOverTwoRedis anyRequest noGauges =
  (({| reconcile.Requeue := false; reconcile.RequeueAfter := 600000000000 |}, None),
   noGauges,
   EvInfo "Reconciling CloudMetrics"
   :: EvList KRedis [resourceNamed "cache1" "aws"; resourceNamed "cache2" "aws"] None
   :: foundLines KRedis [resourceNamed "cache1" "aws"; resourceNamed "cache2" "aws"]
   ++ EvList KPostgres [] None :: foundLines KPostgres []).
Proof.
  apply (earlier_Reconcile_requeues_after_600s earlierOverTwoRedis anyRequest noGauges
           [resourceNamed "cache1" "aws"; resourceNamed "cache2" "aws"] tt [] tt);
    reflexivity.
Defined.

(** ** Failed scrapes, and the calls of a pass in their order *)

Section PassCalls.
Context `{PackageConstants} {W : Type}.

Implicit Types (r : @ReconcileCloudMetrics W) (σ : @State W) (req : reconcile.Request).
Implicit Types (k : Kind) (cr : CR) (ps : list (@MetricsProvider W)) (evs : list Event).
Implicit Types (c : list CroGaugeMetric) (l : list Sample).





End PassCalls.


(** ** Which providers a pass calls, and when it lists *)

Section PassOrder.
Context `{PackageConstants} {W : Type}.

Implicit Types (r : @ReconcileCloudMetrics W) (σ : @State W) (req : reconcile.Request).
Implicit Types (k : Kind) (cr : CR) (ps : list (@MetricsProvider W)) (evs : list Event).

Lemma scrapeEvents_app evs1 evs2 :
  scrapeEvents (evs1 ++ evs2) = scrapeEvents evs1 ++ scrapeEvents evs2.
Proof. apply List.filter_app. Qed.

Lemma scrapeEvents_logs evs : Forall isLog evs -> scrapeEvents evs = [].
Proof.
  induction 1 as [|ev evs Hev _ IH]; [reflexivity|].
  destruct ev; cbn in Hev; try contradiction; exact IH.
Qed.

(** The calls of the loop over the providers are the answers of the
    providers supporting the strategy, and of no other; the world the loop
    leaves is the one these calls leave. *)
Lemma scrapeProviders_answers k ps cr acc σ :
  scrapeEvents (events (scrapeProviders k ps cr acc σ)) =
    fst (answers k (List.filter (fun p => SupportsStrategy p (v1alpha1.Strategy cr)) ps)
           cr (world σ)) /\
  world (final (scrapeProviders k ps cr acc σ)) =
    snd (answers k (List.filter (fun p => SupportsStrategy p (v1alpha1.Strategy cr)) ps)
           cr (world σ)).
Proof.
  revert acc σ. induction ps as [|p ps IH]; intros acc σ; [split; reflexivity|].
  cbn [List.filter].
  destruct (SupportsStrategy p (v1alpha1.Strategy cr)) eqn:Hsup.
  - cbn [answers].
    destruct (ScrapeMetrics p cr (metricTypesFor (catalog k) (v1alpha1.Strategy cr) [])
                (world σ)) as [[e|out] w] eqn:Hcall.
    + rewrite (scrapeProviders_failed _ _ _ _ _ _ _ _ Hsup Hcall). cbn zeta.
      destruct (IH acc {| world := w; gauges := gauges σ |}) as [IH1 IH2].
      cbn [world] in IH1, IH2. cbn [events final fst snd].
      destruct (answers k _ cr w) as [evs w2]. cbn [fst snd] in *.
      split; [|exact IH2].
      cbn [scrapeEvents List.filter]. fold (scrapeEvents (events
        (scrapeProviders k ps cr acc {| world := w; gauges := gauges σ |}))).
      rewrite IH1. reflexivity.
    + rewrite (scrapeProviders_scraped _ _ _ _ _ _ _ _ Hsup Hcall). cbn zeta.
      destruct (IH (acc ++ providers.Metrics out) {| world := w; gauges := gauges σ |})
        as [IH1 IH2].
      cbn [world] in IH1, IH2. cbn [events final fst snd].
      destruct (answers k _ cr w) as [evs w2]. cbn [fst snd] in *.
      split; [|exact IH2].
      cbn [scrapeEvents List.filter]. fold (scrapeEvents (events
        (scrapeProviders k ps cr (acc ++ providers.Metrics out)
           {| world := w; gauges := gauges σ |}))).
      rewrite IH1. reflexivity.
  - rewrite scrapeProviders_skip by exact Hsup. apply IH.
Qed.

Lemma scrapeInstances_answers k ps items acc σ :
  scrapeEvents (events (scrapeInstances k ps items acc σ)) =
    fst (answersDue k ps items (world σ)) /\
  world (final (scrapeInstances k ps items acc σ)) =
    snd (answersDue k ps items (world σ)).
Proof.
  revert acc σ. induction items as [|cr items IH]; intros acc σ; [split; reflexivity|].
  rewrite scrapeInstances_cons. cbn zeta. cbn [events final fst snd answersDue].
  destruct (scrapeProviders_answers k ps cr acc σ) as [Hp1 Hp2].
  destruct (IH (result (scrapeProviders k ps cr acc σ))
               (final (scrapeProviders k ps cr acc σ))) as [IH1 IH2].
  destruct (answers k _ cr (world σ)) as [evs1 w1]. cbn [fst snd] in Hp1, Hp2.
  rewrite Hp2 in IH1, IH2.
  destruct (answersDue k ps items w1) as [evs2 w2]. cbn [fst snd] in *.
  split; [|exact IH2].
  change (scrapeEvents (events (scrapeProviders k ps cr acc σ) ++
                        events (scrapeInstances k ps items
                                  (result (scrapeProviders k ps cr acc σ))
                                  (final (scrapeProviders k ps cr acc σ))))
          = evs1 ++ evs2).
  rewrite scrapeEvents_app, Hp1, IH1. reflexivity.
Qed.

Lemma listResources_world (c : @Client W) k σ :
  world (final (listResources c k σ)) = snd (ClientList c k (world σ)).
Proof. unfold listResources. destruct (ClientList c k (world σ)). reflexivity. Qed.

(** The scrape calls of a pass, with what they were answered. *)
Lemma Reconcile_scrapeEvents r req σ :
  scrapeEvents (events (Reconcile r req σ)) =
    match snd (fst (ClientList (client r) KRedis (world σ))) with
    | Some _ => []
    | None =>
        fst (answersDue KRedis (redisProviderList r)
               (fst (fst (ClientList (client r) KRedis (world σ))))
               (snd (ClientList (client r) KRedis (world σ))))
        ++ fst (answersDue KPostgres (postgresProviderList r)
                  (fst (result (postgresListed r σ)))
                  (world (final (postgresListed r σ))))
    end.
Proof.
  rewrite <- (listResources_result (client r) KRedis σ).
  rewrite <- (listResources_world (client r) KRedis σ).
  fold (redisListed r σ).
  destruct (snd (result (redisListed r σ))) as [e|] eqn:Herr.
  - rewrite (Reconcile_redis_list_failed r req σ e Herr). cbn [events snd].
    unfold redisListed. rewrite listResources_events. reflexivity.
  - rewrite (Reconcile_stages r req σ Herr). cbn [events snd].
    change (EvInfo "reconciling CloudMetrics" :: ?l) with ([EvInfo "reconciling CloudMetrics"] ++ l).
    rewrite !scrapeEvents_app.
    rewrite (scrapeEvents_logs _ (redisPublished_logs r σ)).
    rewrite (scrapeEvents_logs _ (listErrorLogged_logs _)).
    rewrite (scrapeEvents_logs _ (postgresPublished_logs r σ)).
    unfold redisScraped, postgresScraped.
    rewrite (proj1 (scrapeInstances_answers KRedis _ _ _ _)).
    rewrite (proj1 (scrapeInstances_answers KPostgres _ _ _ _)).
    unfold redisListed at 1, postgresListed at 1. rewrite !listResources_events.
    cbn [scrapeEvents List.filter app]. rewrite !app_nil_r. reflexivity.
Qed.

(** X7: every listed resource is scraped once by every provider of its kind
    that supports its strategy, and by no other.  For one resource, the
    scrape calls of the loop over the providers are the answers that the
    providers supporting the resource's strategy give in the order of the
    provider list, each in the world the one before it left, and the world
    after the loop is the one the last of them left: a provider that does
    not support the strategy neither answers nor touches the world.  The
    loop over the resources does so resource by resource, with as many calls
    as there are pairs of a resource and a supporting provider.  A pass makes
    the calls due to the redis resources its listing returned, starting in
    the world that listing left, then those due to the postgres resources,
    and none at all when the redis listing fails. *)
Theorem every_supporting_provider_scrapes_once r req σ :
  (forall k ps cr acc σ',
     scrapeEvents (events (scrapeProviders k ps cr acc σ')) =
       fst (answers k
              (List.filter (fun p => SupportsStrategy p (v1alpha1.Strategy cr)) ps)
              cr (world σ')) /\
     world (final (scrapeProviders k ps cr acc σ')) =
       snd (answers k
              (List.filter (fun p => SupportsStrategy p (v1alpha1.Strategy cr)) ps)
              cr (world σ'))) /\
  (forall k ps items acc σ',
     scrapeEvents (events (scrapeInstances k ps items acc σ')) =
       fst (answersDue k ps items (world σ')) /\
     world (final (scrapeInstances k ps items acc σ')) =
       snd (answersDue k ps items (world σ')) /\
     scrapeCalls (events (scrapeInstances k ps items acc σ')) = callsDue k ps items) /\
  scrapeEvents (events (Reconcile r req σ)) =
    match snd (fst (ClientList (client r) KRedis (world σ))) with
    | Some _ => []
    | None =>
        fst (answersDue KRedis (redisProviderList r)
               (fst (fst (ClientList (client r) KRedis (world σ))))
               (snd (ClientList (client r) KRedis (world σ))))
        ++ fst (answersDue KPostgres (postgresProviderList r)
                  (fst (result (postgresListed r σ)))
                  (world (final (postgresListed r σ))))
    end /\
  scrapeCalls (events (Reconcile r req σ)) =
    match snd (fst (ClientList (client r) KRedis (world σ))) with
    | Some _ => []
    | None =>
        callsDue KRedis (redisProviderList r) (fst (result (redisListed r σ)))
        ++ callsDue KPostgres (postgresProviderList r) (fst (result (postgresListed r σ)))
    end.
Proof.
  split; [|split; [|split]].
  - intros. apply scrapeProviders_answers.
  - intros k ps items acc σ'.
    destruct (scrapeInstances_answers k ps items acc σ') as [H1 H2].
    split; [exact H1|]. split; [exact H2|]. apply scrapeInstances_calls.
  - apply Reconcile_scrapeEvents.
  - apply Reconcile_scrapeCalls.
Qed.

(** X8: a pass lists the redis resources once, before anything else: its
    events are the opening log line, then the redis listing, made in the
    world the pass started in, then the rest.  When that listing returned an
    error there is no rest.  Otherwise the rest has the postgres listing
    once, made in the world the redis scraping left: before it there are the
    scrape calls due to the redis resources and no other call, after it the
    scrape calls due to the postgres resources and no other call. *)
Theorem listing_calls_of_a_pass r req σ :
  listCalls (events (Reconcile r req σ)) =
    match snd (fst (ClientList (client r) KRedis (world σ))) with
    | Some _ => [KRedis]
    | None => [KRedis; KPostgres]
    end /\
  exists rest,
    events (Reconcile r req σ) =
      EvInfo "reconciling CloudMetrics"
      :: EvList KRedis (fst (fst (ClientList (client r) KRedis (world σ))))
                       (snd (fst (ClientList (client r) KRedis (world σ))))
      :: rest /\
    match snd (fst (ClientList (client r) KRedis (world σ))) with
    | Some _ => rest = []
    | None =>
        exists evs1 evs2,
          let listed :=
            ClientList (client r) KPostgres (world (final (redisScraped r σ))) in
          rest = evs1 ++ EvList KPostgres (fst (fst listed)) (snd (fst listed)) :: evs2 /\
          listCalls evs1 = [] /\
          listCalls evs2 = [] /\
          scrapeCalls evs1 =
            callsDue KRedis (redisProviderList r)
              (fst (fst (ClientList (client r) KRedis (world σ)))) /\
          scrapeCalls evs2 =
            callsDue KPostgres (postgresProviderList r) (fst (fst listed)) /\
          (forall k cr, (k, cr) ∈ scrapeCalls evs1 -> k = KRedis) /\
          (forall k cr, (k, cr) ∈ scrapeCalls evs2 -> k = KPostgres)
    end.
Proof.
  rewrite <- !(listResources_result (client r) KRedis σ). fold (redisListed r σ).
  destruct (snd (result (redisListed r σ))) as [e|] eqn:Herr.
  - rewrite (Reconcile_redis_list_failed r req σ e Herr). cbn [events snd].
    unfold redisListed in *. rewrite listResources_events, Herr. split; [reflexivity|].
    exists []. split; reflexivity.
  - rewrite (Reconcile_stages r req σ Herr). cbn [events snd].
    assert (Hl1 : listCalls (events (redisScraped r σ) ++ events (redisPublished r σ)) = []).
    { rewrite listCalls_app, (listCalls_logs _ (redisPublished_logs r σ)).
      rewrite (listCalls_scrapeEv KRedis (redisProviderList r)) by apply scrapeInstances_spec.
      reflexivity. }
    assert (Hl2 : listCalls (listErrorLogged (snd (result (postgresListed r σ)))
                             ++ events (postgresScraped r σ)
                             ++ events (postgresPublished r σ)) = []).
    { rewrite !listCalls_app, (listCalls_logs _ (postgresPublished_logs r σ)).
      rewrite (listCalls_logs _ (listErrorLogged_logs _)).
      rewrite (listCalls_scrapeEv KPostgres (postgresProviderList r))
        by apply scrapeInstances_spec.
      reflexivity. }
    assert (Hs1 : scrapeCalls (events (redisScraped r σ) ++ events (redisPublished r σ))
                  = callsDue KRedis (redisProviderList r) (fst (result (redisListed r σ)))).
    { rewrite scrapeCalls_app, (scrapeCalls_logs _ (redisPublished_logs r σ)).
      unfold redisScraped. rewrite scrapeInstances_calls. apply app_nil_r. }
    assert (Hs2 : scrapeCalls (listErrorLogged (snd (result (postgresListed r σ)))
                               ++ events (postgresScraped r σ)
                               ++ events (postgresPublished r σ))
                  = callsDue KPostgres (postgresProviderList r)
                      (fst (result (postgresListed r σ)))).
    { rewrite !scrapeCalls_app, (scrapeCalls_logs _ (postgresPublished_logs r σ)).
      rewrite (scrapeCalls_logs _ (listErrorLogged_logs _)).
      unfold postgresScraped. rewrite scrapeInstances_calls. cbn [app]. apply app_nil_r. }
    assert (Hpl : result (postgresListed r σ)
                  = fst (ClientList (client r) KPostgres (world (final (redisScraped r σ))))).
    { unfold postgresListed. rewrite listResources_result.
      unfold redisPublished. rewrite setGaugeMetrics_world. reflexivity. }
    split.
    + rewrite listCalls_cons, !listCalls_app.
      rewrite (listCalls_logs _ (redisPublished_logs r σ)).
      rewrite (listCalls_logs _ (listErrorLogged_logs _)).
      rewrite (listCalls_logs _ (postgresPublished_logs r σ)).
      rewrite (listCalls_scrapeEv KRedis (redisProviderList r)
                 (events (redisScraped r σ))) by apply scrapeInstances_spec.
      rewrite (listCalls_scrapeEv KPostgres (postgresProviderList r)
                 (events (postgresScraped r σ))) by apply scrapeInstances_spec.
      unfold redisListed at 1, postgresListed at 1. rewrite !listResources_events.
      reflexivity.
    + exists (events (redisScraped r σ) ++ events (redisPublished r σ)
              ++ events (postgresListed r σ)
              ++ listErrorLogged (snd (result (postgresListed r σ)))
              ++ events (postgresScraped r σ) ++ events (postgresPublished r σ)).
      split.
      { unfold redisListed at 1. rewrite listResources_events.
        fold (redisListed r σ). rewrite Herr. reflexivity. }
      exists (events (redisScraped r σ) ++ events (redisPublished r σ)),
             (listErrorLogged (snd (result (postgresListed r σ)))
              ++ events (postgresScraped r σ) ++ events (postgresPublished r σ)).
      cbn zeta. rewrite <- Hpl.
      split; [|split; [exact Hl1|split; [exact Hl2|split; [exact Hs1|split; [exact Hs2|]]]]].
      * unfold postgresListed at 1. rewrite listResources_events.
        rewrite <- app_assoc. reflexivity.
      * split; intros k cr Hin.
        -- rewrite Hs1 in Hin. eapply callsDue_kind, Hin.
        -- rewrite Hs2 in Hin. eapply callsDue_kind, Hin.
Qed.

End PassOrder.

(** X7 at [recordedCluster]: of the three redis providers, "A" and "C" are
    called for the resource on "aws" and "B" for the one on "gcp". *)
Lemma every_supporting_provider_scrapes_once_witness :
  world (final (@scrapeInstances exampleConstants (list string) KRedis
                  (redisProviderList recordedCluster)
                  [resourceNamed "cache1" "aws"; resourceNamed "cache2" "gcp"] []
                  nothingRecorded))
  = ["A scrapes cache1"; "C scrapes cache1"; "B scrapes cache2"].
Proof.
  rewrite (proj1 (proj2 (proj1 (proj2
             (@every_supporting_provider_scrapes_once exampleConstants (list string)
                recordedCluster anyRequest nothingRecorded))
             KRedis (redisProviderList recordedCluster)
             [resourceNamed "cache1" "aws"; resourceNamed "cache2" "gcp"] []
             nothingRecorded))).
  vm_compute. reflexivity.
Defined.

(** X8 at [recordedCluster]: the calls of the pass in the order the world
    recorded them. *)
Lemma listing_calls_of_a_pass_witness :
  listCalls (events (@Reconcile exampleConstants (list string) recordedCluster
                       anyRequest nothingRecorded))
  = [KRedis; KPostgres] /\
  world (final (@Reconcile exampleConstants (list string) recordedCluster
                  anyRequest nothingRecorded))
  = ["list redis"; "A scrapes cache1"; "C scrapes cache1"; "B scrapes cache2";
     "list postgres"; "P scrapes pg1"].
Proof.
  split.
  - rewrite (proj1 (@listing_calls_of_a_pass exampleConstants (list string)
                      recordedCluster anyRequest nothingRecorded)).
    reflexivity.
  - vm_compute. reflexivity.
Defined.
